(** * tts_kali.py: clipboard text acquisition and espeak invocation

    A shallow embedding of [src/tts_kali.py] (class [KaliTTS] and [main]).

    Python [str] values are sequences of Unicode code points, so a string
    is a [list N] here.  The outside world (pyperclip, the subprocesses,
    the terminal) is a record of answers; the program is written in a
    reader/writer/exception monad whose log is the ordered list of
    everything the program prints, launches and asks. *)

From Stdlib Require Import List ZArith NArith Bool Lia Ascii String.
From Stdlib Require Import DecimalString Sorted Permutation.
Import ListNotations.

Set Implicit Arguments.

(** ** Python strings *)

Module Py.

Definition char := N.
Definition str := list char.

(** ASCII literal as a Python string. *)
Definition lit (s : string) : str :=
  List.map N_of_ascii (list_ascii_of_string s).

Definition char_eqb : char -> char -> bool := N.eqb.

Fixpoint str_eqb (a b : str) : bool :=
  match a, b with
  | [], [] => true
  | x :: a', y :: b' => char_eqb x y && str_eqb a' b'
  | _, _ => false
  end.

(** Truth value of a [str]: only the empty string is false. *)
Definition truthy (s : str) : bool :=
  match s with [] => false | _ :: _ => true end.

(** Truth value of an optional [str] ([None] is false). *)
Definition truthy_opt (o : option str) : bool :=
  match o with None => false | Some s => truthy s end.

(** [len(s)] *)
Definition len {A} (l : list A) : Z := Z.of_nat (List.length l).

Definition in_range (lo hi c : N) : bool := (lo <=? c)%N && (c <=? hi)%N.

(** [str.isspace] on one code point: the ASCII table of CPython
    (TAB..CR, FS..US, SPACE) and the Unicode white-space characters. *)
Definition isspace (c : char) : bool :=
  in_range 9 13 c || in_range 28 32 c
  || (c =? 133)%N || (c =? 160)%N || (c =? 5760)%N
  || in_range 8192 8202 c || (c =? 8232)%N || (c =? 8233)%N
  || (c =? 8239)%N || (c =? 8287)%N || (c =? 12288)%N.

Fixpoint lstrip (s : str) : str :=
  match s with
  | [] => []
  | c :: r => if isspace c then lstrip r else s
  end.

Definition rstrip (s : str) : str := rev (lstrip (rev s)).

(** [s.strip()] *)
Definition strip (s : str) : str := rstrip (lstrip s).

(** [s.split(sep)] for a one-character separator: never an empty list. *)
Fixpoint split_on (sep : char) (s : str) : list str :=
  match s with
  | [] => [[]]
  | c :: r =>
      if char_eqb c sep then [] :: split_on sep r
      else match split_on sep r with
           | h :: t => (c :: h) :: t
           | [] => [[c]]
           end
  end.

(** [s.split()]: the maximal runs of non-space characters.  [cur] is the
    run being read, in reverse. *)
Fixpoint split_ws_from (cur : str) (s : str) : list str :=
  match s with
  | [] => match cur with [] => [] | _ => [rev cur] end
  | c :: r =>
      if isspace c
      then match cur with
           | [] => split_ws_from [] r
           | _ => rev cur :: split_ws_from [] r
           end
      else split_ws_from (c :: cur) r
  end.

Definition split_ws (s : str) : list str := split_ws_from [] s.

(** [sep.join(parts)] *)
Fixpoint join (sep : str) (parts : list str) : str :=
  match parts with
  | [] => []
  | [p] => p
  | p :: rest => p ++ sep ++ join sep rest
  end.

(** [str(n)] for an [int] (of at most 4300 digits from CPython 3.10.7
    on, which is also what [int()] of argparse accepts). *)
Definition str_of_int (n : Z) : str :=
  lit (NilZero.string_of_int (Z.to_int n)).

(** [l[i:]] and [l[:i]] for a non-negative index. *)
Definition slice_from {A} (i : nat) (l : list A) : list A := skipn i l.
Definition slice_to {A} (i : nat) (l : list A) : list A := firstn i l.

(** [l.insert(i, x)]: a negative index counts from the end, and an index
    out of range is clamped to the nearest end. *)
Definition insert {A} (i : Z) (x : A) (l : list A) : list A :=
  let n := len l in
  let j := if (i <? 0)%Z then Z.max 0 (i + n) else Z.min i n in
  firstn (Z.to_nat j) l ++ x :: skipn (Z.to_nat j) l.

(** [s.encode('utf-8')] with the strict error handler succeeds: no
    code point of [s] is a surrogate (U+D800..U+DFFF). *)
Definition encodable (s : str) : bool :=
  forallb (fun c => negb (in_range 55296 57343 c)) s.

(** Order of [str]: lexicographic on code points. *)
Fixpoint str_ltb (a b : str) : bool :=
  match a, b with
  | _, [] => false
  | [], _ :: _ => true
  | x :: a', y :: b' =>
      if (x <? y)%N then true
      else if (y <? x)%N then false
      else str_ltb a' b'
  end.

Definition str_leb (a b : str) : bool := negb (str_ltb b a).

Definition str_lt (a b : str) : Prop := str_ltb a b = true.
Definition str_le (a b : str) : Prop := str_leb a b = true.

(** [set(l)]: one representative of each element.  The iteration order of
    a Python set is unspecified; the only use below sorts the result. *)
Fixpoint set (l : list str) : list str :=
  match l with
  | [] => []
  | x :: r => if existsb (str_eqb x) r then set r else x :: set r
  end.

Fixpoint sorted_insert (x : str) (l : list str) : list str :=
  match l with
  | [] => [x]
  | y :: r => if str_leb x y then x :: l else y :: sorted_insert x r
  end.

(** [sorted(l)] *)
Fixpoint sorted (l : list str) : list str :=
  match l with
  | [] => []
  | x :: r => sorted_insert x (sorted r)
  end.

End Py.

Import Py.

(** ** Exceptions, the world and the program monad *)

(** The exceptions that occur in the program.  [OSError] stands for the
    operating-system errors other than [FileNotFoundError] (permission
    denied, argument list too long).  [KeyboardInterrupt] and [SystemExit]
    are not subclasses of [Exception]. *)
Inductive exn :=
| FileNotFoundError
| OSError
| CalledProcessError (returncode : Z)
| IndexError
| EOFError
| PyperclipException
| UnicodeDecodeError
| ValueError
| UnicodeEncodeError
| KeyboardInterrupt
| SystemExit (code : Z).

(** [isinstance(e, Exception)] *)
Definition is_Exception (e : exn) : bool :=
  match e with
  | KeyboardInterrupt | SystemExit _ => false
  | _ => true
  end.

Inductive result (A : Type) :=
| Ret (a : A)
| Raise (e : exn).
Arguments Ret {A} a.
Arguments Raise {A} e.

(** [subprocess.CompletedProcess] *)
Record completed := { returncode : Z; stdout : str }.

(** What the outside answers.  [run] is what launching a command and
    waiting for it gives before any [check=True] test: a completed process
    or the exception of the launch.  On one execution the program runs
    every command line at most once, so a function of the command line
    loses nothing. *)
Record world := {
  paste : result str;                    (* pyperclip.paste() *)
  run : list str -> result completed;    (* subprocess.run(cmd, ...) *)
  input : result str                     (* input(prompt) *)
}.

(** The lines the program prints, one constructor per [print] of the
    source, with the values it formats. *)
Inductive message :=
| MsgEspeakMissing            (* line 18 *)
| MsgInstallEspeak            (* line 19 *)
| MsgClipboardEmpty           (* line 36 *)
| MsgClipboardError (e : exn) (* line 40 *)
| MsgGotVia (desc : str)      (* line 56 *)
| MsgSavingTo (path : str)    (* line 86 *)
| MsgParams (voice : str) (speed pitch : Z)  (* line 89 *)
| MsgEspeakError (e : exn)    (* line 93 *)
| MsgVoicesHeader             (* line 103 *)
| MsgRule                     (* line 104 *)
| MsgVoiceLine (code name : str)  (* line 110 *)
| MsgVoicesFailed (e : exn)   (* line 112 *)
| MsgTestBanner               (* line 169 *)
| MsgTestDeps                 (* line 170 *)
| MsgTestVoices               (* line 171 *)
| MsgVoiceCount (n : Z)       (* line 174 *)
| MsgVoiceExamples (s : str)  (* line 175 *)
| MsgTestSpeak (text : str)   (* line 178 *)
| MsgTextFromArgs (head : str)    (* line 186 *)
| MsgAcquiring                (* line 188 *)
| MsgNoText                   (* lines 192-199: what to do *)
| MsgTooLong (n : Z)          (* line 203 *)
| MsgCancelled                (* line 206 *)
| MsgTextReceived (n : Z)     (* line 209 *)
| MsgTextStart (head : str)   (* line 210 *)
| MsgStarting                 (* line 213 *)
| MsgSavedTo (path : str)     (* line 225 *)
| MsgDone                     (* line 227 *)
| MsgSpeakFailed.             (* line 229 *)

Inductive event :=
| Print (m : message)
| Run (cmd : list str)
| Input.

Definition trace := list event.

(** A computation reads the world, logs events and returns or raises. *)
Definition M (A : Type) : Type := world -> trace * result A.

Definition ret {A} (a : A) : M A := fun _ => ([], Ret a).

Definition raise {A} (e : exn) : M A := fun _ => ([], Raise e).

Definition bind {A B} (m : M A) (k : A -> M B) : M B :=
  fun w =>
    match m w with
    | (t, Ret a) => let (t', r) := k a w in (t ++ t', r)
    | (t, Raise e) => (t, Raise e)
    end.

(** [try: m  except <h>: ...]: the handler answers [None] on the
    exceptions its clause does not name, which then propagate. *)
Definition try_except {A} (m : M A) (h : exn -> option (M A)) : M A :=
  fun w =>
    match m w with
    | (t, Ret a) => (t, Ret a)
    | (t, Raise e) =>
        match h e with
        | Some k => let (t', r) := k w in (t ++ t', r)
        | None => (t, Raise e)
        end
    end.

Declare Scope py_scope.
Delimit Scope py_scope with py.
Notation "x <- m ;; k" := (bind m (fun x => k))
  (at level 61, m at next level, right associativity) : py_scope.
Notation "m ;; k" := (bind m (fun _ => k))
  (at level 61, right associativity) : py_scope.
Open Scope py_scope.

(** The strings of a notice that come from the command line or from the
    clipboard.  The other notices are fixed texts, numbers, texts of
    exceptions and fields decoded from the output of the engine. *)
Definition caller_strings (m : message) : list str :=
  match m with
  | MsgTextFromArgs s | MsgTextStart s | MsgSavingTo s | MsgSavedTo s => [s]
  | MsgParams v _ _ => [v]
  | _ => []
  end.

(** [print(...)].  The standard output is UTF-8 with the strict error
    handler, Python's default: a notice with a string of the caller that
    holds a surrogate (an undecodable byte of the command line) raises
    [UnicodeEncodeError] and nothing is written. *)
Definition print (m : message) : M unit :=
  fun _ =>
    if forallb encodable (caller_strings m)
    then ([Print m], Ret tt)
    else ([], Raise UnicodeEncodeError).

(** [sys.exit(code)] *)
Definition sys_exit {A} (code : Z) : M A := raise (SystemExit code).

(** [pyperclip.paste()] *)
Definition pyperclip_paste : M str := fun w => ([], paste w).

(** [input(prompt)] *)
Definition py_input : M str := fun w => ([Input], input w).

(** [subprocess.run(cmd, check=check)] *)
Definition subprocess_run (check : bool) (cmd : list str) : M completed :=
  fun w =>
    match run w cmd with
    | Ret p =>
        if check && negb (returncode p =? 0)%Z
        then ([Run cmd], Raise (CalledProcessError (returncode p)))
        else ([Run cmd], Ret p)
    | Raise e => ([Run cmd], Raise e)
    end.

(** How the interpreter ends: an exit status, or an exception that
    nobody caught (a traceback). *)
Inductive outcome :=
| Exited (status : Z)
| Crashed (e : exn).

Definition process_outcome {A} (r : result A) : outcome :=
  match r with
  | Ret _ => Exited 0
  | Raise (SystemExit c) => Exited c
  | Raise e => Crashed e
  end.

(** ** class KaliTTS *)

Module KaliTTS.

(** [check_dependencies] (lines 11-28).  The [import pyperclip] of line 24
    cannot fail: the module was already imported at line 2. *)
Definition check_dependencies : M unit :=
  try_except
    (_ <- subprocess_run true [lit "espeak"; lit "--version"] ;; ret tt)
    (fun e =>
       match e with
       | CalledProcessError _ | FileNotFoundError =>
           Some (print MsgEspeakMissing ;; print MsgInstallEspeak ;; sys_exit 1)
       | _ => None
       end).

(** [__init__] (lines 8-9) *)
Definition init : M unit := check_dependencies.

(** The table of [_fallback_get_text] (lines 46-50). *)
Definition methods : list (list str * str) :=
  [ ([lit "xclip"; lit "-o"; lit "-selection"; lit "primary"],
     lit "X11 primary selection");
    ([lit "xclip"; lit "-o"], lit "X11 clipboard");
    ([lit "xsel"; lit "-o"; lit "--primary"], lit "XSel primary") ].

(** One turn of the loop of lines 52-59: [Some v] when the function
    returns [v], [None] when the loop goes on. *)
Definition fallback_attempt (cmd : list str) (desc : str)
  : M (option (option str)) :=
  try_except
    (result <- subprocess_run false cmd ;;
     if (returncode result =? 0)%Z && truthy (strip (stdout result))
     then print (MsgGotVia desc) ;; ret (Some (Some (strip (stdout result))))
     else ret None)
    (fun e =>
       match e with
       | FileNotFoundError => Some (ret None)
       | _ => None
       end).

Fixpoint fallback_loop (ms : list (list str * str)) : M (option str) :=
  match ms with
  | [] => ret None
  | (cmd, desc) :: rest =>
      r <- fallback_attempt cmd desc ;;
      match r with
      | Some v => ret v
      | None => fallback_loop rest
      end
  end.

(** [_fallback_get_text] (lines 44-61) *)
Definition _fallback_get_text : M (option str) := fallback_loop methods.

(** [get_selected_text] (lines 30-42) *)
Definition get_selected_text : M (option str) :=
  try_except
    (text <- pyperclip_paste ;;
     if negb (truthy text) || str_eqb (strip text) []
     then print MsgClipboardEmpty ;; ret None
     else ret (Some (strip text)))
    (fun e =>
       if is_Exception e
       then Some (print (MsgClipboardError e) ;; _fallback_get_text)
       else None).

(** The command line of [text_to_speech] (lines 71-85). *)
Definition espeak_cmd (text voice : str) (speed pitch amplitude : Z)
    (output : option str) : list str :=
  let cmd := [ lit "espeak";
               lit "-v"; voice;
               lit "-s"; str_of_int speed;
               lit "-p"; str_of_int pitch;
               lit "-a"; str_of_int amplitude;
               lit "--";
               text ] in
  match output with
  | Some output_file =>
      if truthy output_file
      then insert (-1) output_file (insert (-1) (lit "-w") cmd)
      else cmd
  | None => cmd
  end.

(** [text_to_speech] (lines 63-94), the keyword arguments spelled out. *)
Definition text_to_speech (text voice : str) (speed pitch amplitude : Z)
    (output : option str) : M bool :=
  let cmd := espeak_cmd text voice speed pitch amplitude output in
  match output with
  | Some output_file =>
      if truthy output_file then print (MsgSavingTo output_file) else ret tt
  | None => ret tt
  end ;;
  try_except
    (print (MsgParams voice speed pitch) ;;
     _ <- subprocess_run true cmd ;;
     ret true)
    (fun e =>
       match e with
       | CalledProcessError _ => Some (print (MsgEspeakError e) ;; ret false)
       | _ => None
       end).

(** The loop of [list_voices] (lines 105-110). *)
Fixpoint print_voice_lines (lines : list str) : M unit :=
  match lines with
  | [] => ret tt
  | line :: rest =>
      let parts := split_ws line in
      (if (len parts >=? 4)%Z
       then match nth_error parts 1 with
            | Some lang_code =>
                print (MsgVoiceLine lang_code (join (lit " ") (slice_from 3 parts)))
            | None => raise IndexError
            end
       else ret tt) ;;
      print_voice_lines rest
  end.

(** [list_voices] (lines 96-112) *)
Definition list_voices : M unit :=
  try_except
    (result <- subprocess_run false [lit "espeak"; lit "--voices"] ;;
     let lines := split_on 10%N (strip (stdout result)) in
     print MsgVoicesHeader ;;
     print MsgRule ;;
     print_voice_lines (slice_from 1 lines))
    (fun e =>
       if is_Exception e then Some (print (MsgVoicesFailed e)) else None).

(** The loop of [get_available_voices] (lines 120-123): [parts[1]] raises
    [IndexError] on a line of one field. *)
Fixpoint collect_voices (lines : list str) (voices : list str)
  : M (list str) :=
  match lines with
  | [] => ret voices
  | line :: rest =>
      let parts := split_ws line in
      match parts with
      | [] => collect_voices rest voices
      | _ :: _ =>
          match nth_error parts 1 with
          | Some code => collect_voices rest (voices ++ [code])
          | None => raise IndexError
          end
      end
  end.

(** The list of line 126. *)
Definition fallback_voices : list str :=
  [lit "ru"; lit "en"; lit "de"; lit "fr"; lit "es"].

(** The [try] block of [get_available_voices] (lines 117-124). *)
Definition enumerate_voices : M (list str) :=
  result <- subprocess_run false [lit "espeak"; lit "--voices"] ;;
  voices <- collect_voices
              (slice_from 1 (split_on 10%N (strip (stdout result)))) [] ;;
  ret (sorted (set voices)).

(** [get_available_voices] (lines 114-126): a bare [except:] catches
    every exception. *)
Definition get_available_voices : M (list str) :=
  try_except enumerate_voices (fun _ => Some (ret fallback_voices)).

End KaliTTS.

(** ** main *)

(** The namespace [parser.parse_args()] returns (lines 143-160). *)
Record args := {
  voice : str;
  speed : Z;
  pitch : Z;
  amplitude : Z;
  output : option str;
  list_voices : bool;
  text : option str;
  test : bool
}.

(** "Тест работы TTS системы" (line 177) *)
Definition test_text : str :=
  [1058; 1077; 1089; 1090; 32;
   1088; 1072; 1073; 1086; 1090; 1099; 32;
   84; 84; 83; 32;
   1089; 1080; 1089; 1090; 1077; 1084; 1099]%N.

Section Main.

(** [str.lower]: the Unicode case tables are not part of the program. *)
Variable lower : str -> str.

(** Lines 209-229. *)
Definition speak (a : args) (text : str) : M unit :=
  print (MsgTextReceived (len text)) ;;
  print (MsgTextStart (slice_to 150 text)) ;;
  print MsgStarting ;;
  success <- KaliTTS.text_to_speech text (voice a) (speed a) (pitch a)
               (amplitude a) (output a) ;;
  if success : bool
  then match output a with
       | Some path => if truthy path then print (MsgSavedTo path) else print MsgDone
       | None => print MsgDone
       end
  else print MsgSpeakFailed.

(** Lines 202-229: the question on a long text, then the speech. *)
Definition confirm_and_speak (a : args) (text : str) : M unit :=
  if (len text >? 1000)%Z
  then
    print (MsgTooLong (len text)) ;;
    confirm <- py_input ;;
    if negb (str_eqb (lower confirm) (lit "y"))
    then print MsgCancelled
    else speak a text
  else speak a text.

(** Lines 192-200: no text, the advice and the exit. *)
Definition no_text : M str := print MsgNoText ;; sys_exit 1.

(** Lines 188-200: the text of the clipboard. *)
Definition from_clipboard : M str :=
  print MsgAcquiring ;;
  r <- KaliTTS.get_selected_text ;;
  match r with
  | Some t => if truthy t then ret t else no_text
  | None => no_text
  end.

(** Lines 184-200: the text to speak. *)
Definition acquire (a : args) : M str :=
  match text a with
  | Some t =>
      if truthy t
      then print (MsgTextFromArgs (slice_to 100 t)) ;; ret t
      else from_clipboard
  | None => from_clipboard
  end.

(** Lines 168-181. *)
Definition self_test : M unit :=
  print MsgTestBanner ;;
  print MsgTestDeps ;;
  print MsgTestVoices ;;
  voices <- KaliTTS.get_available_voices ;;
  print (MsgVoiceCount (len voices)) ;;
  print (MsgVoiceExamples (join (lit ", ") (slice_to 5 voices))) ;;
  print (MsgTestSpeak test_text) ;;
  _ <- KaliTTS.text_to_speech test_text (lit "ru") 160 50 100 None ;;
  ret tt.

(** [main] (lines 128-229), from the parsed arguments on: what
    [parse_args] does with a wrong command line is argparse's. *)
Definition main (a : args) : M unit :=
  KaliTTS.init ;;
  if list_voices a then KaliTTS.list_voices
  else if test a then self_test
  else
    text <- acquire a ;;
    confirm_and_speak a text.

End Main.

(** ** Reading a trace *)

(** The commands launched, in order. *)
Fixpoint runs (t : trace) : list (list str) :=
  match t with
  | [] => []
  | Run cmd :: r => cmd :: runs r
  | _ :: r => runs r
  end.

(** The lines printed, in order. *)
Fixpoint printed (t : trace) : list message :=
  match t with
  | [] => []
  | Print m :: r => m :: printed r
  | _ :: r => printed r
  end.

(** A synthesis command: [espeak -v ...]. *)
Definition is_synthesis (cmd : list str) : bool :=
  match cmd with
  | e :: v :: _ => str_eqb e (lit "espeak") && str_eqb v (lit "-v")
  | _ => false
  end.

(** An attempt of the fallback chain that gives no text: the tool is
    not installed, it exits non-zero, or it prints only white space. *)
Definition gives_nothing (r : result completed) : bool :=
  match r with
  | Ret p => negb ((returncode p =? 0)%Z && truthy (strip (stdout p)))
  | Raise FileNotFoundError => true
  | Raise _ => false
  end.

(** The version probe of [check_dependencies] succeeds. *)
Definition espeak_present (w : world) : Prop :=
  exists p, run w [lit "espeak"; lit "--version"] = Ret p /\ returncode p = 0%Z.

(** The last arguments of the synthesis commands launched: the texts
    handed to the engine. *)
Definition spoken (t : trace) : list str :=
  List.map (fun cmd => last cmd []) (filter is_synthesis (runs t)).

(** The lines of a voice table after its header (line 120). *)
Definition voice_lines (out : str) : list str :=
  slice_from 1 (split_on 10%N (strip out)).

(** A line of exactly one field, on which [parts[1]] is out of range. *)
Definition one_field (line : str) : bool :=
  match split_ws line with
  | [_] => true
  | _ => false
  end.

(** The second fields of the lines that have one. *)
Definition second_fields (lines : list str) : list str :=
  flat_map (fun line => match split_ws line with
                        | _ :: code :: _ => [code]
                        | _ => []
                        end) lines.

(** [lower] on the ASCII letters, enough to run [main] on ASCII answers. *)
Definition ascii_lower (s : str) : str :=
  List.map (fun c => if in_range 65 90 c then (c + 32)%N else c) s.


(** ** Sample arguments and worlds *)

Fixpoint cmd_eqb (a b : list str) : bool :=
  match a, b with
  | [], [] => true
  | x :: a', y :: b' => str_eqb x y && cmd_eqb a' b'
  | _, _ => false
  end.

(** A process that ends with status [rc] after writing [out]. *)
Definition ended (rc : Z) (out : string) : result completed :=
  Ret {| returncode := rc; stdout := lit out |}.

(** [tts] with the default options, [-o output] and [-t text]. *)
Definition tts (output text : option str) : args :=
  {| voice := lit "ru"; speed := 160; pitch := 50; amplitude := 100;
     output := output; list_voices := false; text := text; test := false |}.

Definition xclip_primary : list str :=
  [lit "xclip"; lit "-o"; lit "-selection"; lit "primary"].
Definition xclip_clipboard : list str := [lit "xclip"; lit "-o"].
Definition xsel_primary : list str := [lit "xsel"; lit "-o"; lit "--primary"].
Definition espeak_voices : list str := [lit "espeak"; lit "--voices"].
Definition espeak_version : list str := [lit "espeak"; lit "--version"].

(** The clipboard holds two spaces; every tool is installed and prints
    "hello". *)
Definition blank_clipboard : world :=
  {| paste := Ret (lit "  ");
     run := fun _ => ended 0 "hello";
     input := Ret (lit "n") |}.

(** pyperclip finds no clipboard mechanism; the primary selection is
    empty and the clipboard holds " picked ". *)
Definition no_pyperclip : world :=
  {| paste := Raise PyperclipException;
     run := fun cmd =>
              if cmd_eqb cmd xclip_primary then ended 1 ""
              else ended 0 " picked ";
     input := Ret (lit "n") |}.

(** pyperclip fails, xclip and xsel are not installed. *)
Definition nothing_selected : world :=
  {| paste := Raise PyperclipException;
     run := fun cmd =>
              if cmd_eqb cmd espeak_version then ended 0 "eSpeak"
              else Raise FileNotFoundError;
     input := Ret (lit "n") |}.

(** The clipboard holds " hi ". *)
Definition clipboard_hi : world :=
  {| paste := Ret (lit " hi ");
     run := fun _ => ended 0 "";
     input := Ret (lit "n") |}.

(** The engine passes the version probe and exits with status 1 on a
    synthesis. *)
Definition engine_fails : world :=
  {| paste := Ret (lit " hi ");
     run := fun cmd => if is_synthesis cmd then ended 1 "" else ended 0 "";
     input := Ret (lit "n") |}.

(** The engine passes the version probe, and the launch of a synthesis
    raises [OSError] (the argument list is too long for the operating
    system, the binary is no longer executable). *)
Definition engine_unlaunchable : world :=
  {| paste := Ret (lit " hi ");
     run := fun cmd => if is_synthesis cmd then Raise OSError else ended 0 "";
     input := Ret (lit "n") |}.

(** A text of 1001 characters. *)
Definition long_text : str := repeat 97%N 1001.

(** [espeak --voices] prints nothing. *)
Definition silent_engine : world :=
  {| paste := Ret (lit "");
     run := fun _ => ended 0 "";
     input := Ret (lit "n") |}.

(** No command can be launched. *)
Definition engine_missing : world :=
  {| paste := Ret (lit "");
     run := fun _ => Raise FileNotFoundError;
     input := Ret (lit "n") |}.

(** A voice table whose second line has one field. *)
Definition broken_table : world :=
  {| paste := Ret (lit "");
     run := fun _ =>
              Ret {| returncode := 0;
                     stdout := lit "Pty Language" ++ [10%N]
                               ++ lit " 5  ru  M  russian" ++ [10%N]
                               ++ lit "garbage" |};
     input := Ret (lit "n") |}.

(** A voice table of three voices, two of them of one language. *)
Definition three_voices : world :=
  {| paste := Ret (lit "");
     run := fun _ =>
              Ret {| returncode := 0;
                     stdout := lit "Pty Language Age/Gender VoiceName" ++ [10%N]
                               ++ lit " 5  ru  M  russian" ++ [10%N]
                               ++ lit " 5  en  M  english" ++ [10%N]
                               ++ lit " 2  en  M  english-north" ++ [10%N] |};
     input := Ret (lit "n") |}.

(** ** More readings, arguments and worlds *)

(** The number of questions asked on the terminal. *)
Fixpoint prompts (t : trace) : nat :=
  match t with
  | [] => 0
  | Input :: r => S (prompts r)
  | _ :: r => prompts r
  end.

(** What [list_voices] prints for one row of the voice table: rows of
    fewer than four fields give nothing. *)
Definition row_message (line : str) : list message :=
  match split_ws line with
  | _ :: lang_code :: _ :: name :: more =>
      [MsgVoiceLine lang_code (join (lit " ") (name :: more))]
  | _ => []
  end.

(** The same world with another clipboard. *)
Definition with_paste (w : world) (p : result str) : world :=
  {| paste := p; run := run w; input := input w |}.

(** The same arguments without [--output]. *)
Definition without_output (a : args) : args :=
  {| voice := voice a; speed := speed a; pitch := pitch a;
     amplitude := amplitude a; output := None;
     list_voices := list_voices a; text := text a; test := test a |}.

(** [tts -l -t hi --test -o out.wav] *)
Definition tts_list : args :=
  {| voice := lit "en"; speed := 200; pitch := 60; amplitude := 80;
     output := Some (lit "out.wav"); list_voices := true;
     text := Some (lit "hi"); test := true |}.

(** [tts --test -v en -s 200 -p 60 -a 80 -o out.wav -t hi] *)
Definition tts_test : args :=
  {| voice := lit "en"; speed := 200; pitch := 60; amplitude := 80;
     output := Some (lit "out.wav"); list_voices := false;
     text := Some (lit "hi"); test := true |}.

(** The version probe is refused by the operating system. *)
Definition probe_denied : world :=
  {| paste := Ret (lit "hi");
     run := fun _ => Raise OSError;
     input := Ret (lit "y") |}.

(** The engine works, the clipboard holds 1001 characters, and there is
    no terminal to answer the question. *)
Definition no_terminal : world :=
  {| paste := Ret long_text;
     run := fun _ => ended 0 "";
     input := Raise EOFError |}.

(** pyperclip fails and xclip cannot be executed. *)
Definition xclip_denied : world :=
  {| paste := Raise PyperclipException;
     run := fun cmd =>
              if cmd_eqb cmd espeak_version then ended 0 "eSpeak"
              else if cmd_eqb cmd xclip_primary then Raise OSError
              else ended 0 "text";
     input := Ret (lit "n") |}.

(** The voice table of [three_voices] in another order, from an engine
    that exits with status 1. *)
Definition voices_reordered : world :=
  {| paste := Ret (lit "");
     run := fun _ =>
              Ret {| returncode := 1;
                     stdout := lit "Pty Language Age/Gender VoiceName" ++ [10%N]
                               ++ lit " 2  en  M  english-north" ++ [10%N]
                               ++ lit " 5  ru  M  russian" ++ [10%N] |};
     input := Ret (lit "n") |}.


(** ** Encodable strings, trimmed strings, options and operands *)

Definition encodable_opt (o : option str) : bool :=
  match o with
  | Some s => encodable s
  | None => true
  end.

(** The standard output can encode the strings of the notices printed
    on the way to the synthesis of [text]: the text, the voice and the
    output path. *)
Definition speakable (a : args) (text : str) : Prop :=
  encodable text = true /\ encodable (voice a) = true
  /\ encodable_opt (output a) = true.

(** A string that is not empty and neither starts nor ends with a
    white-space character. *)
Definition trimmed (t : str) : bool :=
  match t with
  | [] => false
  | c :: _ => negb (isspace c) && negb (isspace (last t c))
  end.

(** What a getopt parser, as the one of espeak, makes of a command line:
    the arguments before the first [--] are read for options, the
    arguments after it are operands, whatever they look like. *)
Fixpoint before_marker (cmd : list str) : list str :=
  match cmd with
  | [] => []
  | x :: r => if str_eqb x (lit "--") then [] else x :: before_marker r
  end.

Fixpoint after_marker (cmd : list str) : list str :=
  match cmd with
  | [] => []
  | x :: r => if str_eqb x (lit "--") then r else after_marker r
  end.

Unset Implicit Arguments.

(** Unfolds the operations of the monad. *)
Ltac run_monad :=
  unfold try_except, bind, subprocess_run, pyperclip_paste, py_input,
    print, sys_exit, raise, ret in *.

(** ** Facts on Python strings *)

Lemma str_eqb_eq (a b : str) : str_eqb a b = true <-> a = b.
Proof.
  revert b; induction a as [|x a IH]; intros [|y b]; simpl;
    try (split; (reflexivity || discriminate)).
  unfold char_eqb. rewrite andb_true_iff, N.eqb_eq, IH.
  split; [intros [-> ->]; reflexivity | intros H; inversion H; auto].
Qed.

Lemma str_eqb_refl (a : str) : str_eqb a a = true.
Proof. now apply str_eqb_eq. Qed.

Lemma str_eqb_nil (a : str) : str_eqb a [] = negb (truthy a).
Proof. destruct a; reflexivity. Qed.

Lemma truthy_false (a : str) : truthy a = false <-> a = [].
Proof. destruct a; simpl; split; (reflexivity || discriminate). Qed.

Lemma truthy_true (a : str) : truthy a = true <-> a <> [].
Proof. destruct a; simpl; split; (congruence || discriminate || auto). Qed.


Lemma lstrip_nonspace (c : char) (r : str) :
  isspace c = false -> lstrip (c :: r) = c :: r.
Proof. intros H; simpl; now rewrite H. Qed.







Lemma lstrip_spaces (l x : str) :
  forallb isspace l = true -> lstrip (l ++ x) = lstrip x.
Proof.
  induction l as [|c l IH]; simpl; [reflexivity|].
  intros H. apply andb_true_iff in H. destruct H as [H1 H2].
  rewrite H1. now apply IH.
Qed.

Lemma forallb_rev (f : char -> bool) (l : str) :
  forallb f l = true -> forallb f (rev l) = true.
Proof.
  rewrite !forallb_forall. intros H c Hc. apply H. now apply in_rev.
Qed.

Lemma trimmed_ends (t : str) :
  trimmed t = true ->
  (exists c r, t = c :: r /\ isspace c = false)
  /\ (exists c r, rev t = c :: r /\ isspace c = false).
Proof.
  destruct t as [|c r]; [discriminate|]. unfold trimmed.
  intros H. apply andb_true_iff in H. destruct H as [H1 H2].
  apply negb_true_iff in H1, H2. split; [eauto|].
  destruct (exists_last (l := c :: r)) as (q & x & E); [discriminate|].
  rewrite E in *. rewrite last_last in H2.
  rewrite rev_app_distr. simpl. eauto.
Qed.

(** [strip] takes the white space off both ends and nothing else:
    between spaces, a trimmed string is what [strip] gives. *)
Lemma strip_between_spaces (l t r : str) :
  forallb isspace l = true -> forallb isspace r = true ->
  trimmed t = true ->
  strip (l ++ t ++ r) = t.
Proof.
  intros L R T.
  destruct (trimmed_ends t T) as ((c & q & E & C) & (c' & q' & E' & C')).
  unfold strip. rewrite (lstrip_spaces _ _ L).
  rewrite E at 1. simpl app. rewrite (lstrip_nonspace _ _ C).
  change (c :: q ++ r) with ((c :: q) ++ r). rewrite <- E.
  unfold rstrip. rewrite rev_app_distr.
  rewrite (lstrip_spaces _ _ (forallb_rev _ _ R)).
  rewrite E'. rewrite (lstrip_nonspace _ _ C'). rewrite <- E'.
  apply rev_involutive.
Qed.


(** The order of strings is a strict total order. *)
Lemma str_ltb_irrefl (a : str) : str_ltb a a = false.
Proof.
  induction a as [|x a IH]; simpl; [reflexivity|].
  now rewrite N.ltb_irrefl.
Qed.

Lemma str_ltb_trans (a b c : str) :
  str_ltb a b = true -> str_ltb b c = true -> str_ltb a c = true.
Proof.
  revert b c; induction a as [|x a IH]; intros [|y b] [|z c]; simpl;
    try discriminate; try reflexivity.
  destruct (N.ltb_spec x y), (N.ltb_spec y x), (N.ltb_spec y z),
    (N.ltb_spec z y), (N.ltb_spec x z), (N.ltb_spec z x);
    try discriminate; try reflexivity; try lia.
  apply IH.
Qed.

Lemma str_ltb_total (a b : str) :
  str_ltb a b = true \/ a = b \/ str_ltb b a = true.
Proof.
  revert b; induction a as [|x a IH]; intros [|y b]; simpl; auto.
  destruct (N.ltb_spec x y), (N.ltb_spec y x); auto; try lia.
  assert (x = y) by lia; subst y.
  destruct (IH b) as [H1 | [-> | H1]]; auto.
Qed.

Lemma str_lt_le (a b : str) : str_lt a b -> str_le a b.
Proof.
  unfold str_lt, str_le, str_leb; intros H.
  destruct (str_ltb b a) eqn:E; [|reflexivity].
  pose proof (str_ltb_trans _ _ _ H E) as T.
  now rewrite str_ltb_irrefl in T.
Qed.

(** ** Facts on [set] and [sorted] *)

Lemma existsb_str_eqb (x : str) (l : list str) :
  existsb (str_eqb x) l = true <-> In x l.
Proof.
  rewrite existsb_exists; split.
  - intros (y & Hy & E). apply str_eqb_eq in E. now subst.
  - intros H; exists x; split; [exact H | apply str_eqb_refl].
Qed.

Lemma set_In (x : str) (l : list str) : In x (set l) <-> In x l.
Proof.
  induction l as [|y l IH]; simpl; [tauto|].
  destruct (existsb (str_eqb y) l) eqn:E; simpl; rewrite IH.
  - apply existsb_str_eqb in E. split; [auto | intros [<- | H]; auto].
  - tauto.
Qed.

Lemma set_NoDup (l : list str) : NoDup (set l).
Proof.
  induction l as [|y l IH]; simpl; [constructor|].
  destruct (existsb (str_eqb y) l) eqn:E; [exact IH|].
  constructor; [|exact IH].
  rewrite set_In, <- existsb_str_eqb, E. discriminate.
Qed.

Lemma sorted_insert_In (z x : str) (l : list str) :
  In z (sorted_insert x l) <-> z = x \/ In z l.
Proof.
  induction l as [|y l IH]; simpl; [intuition|].
  destruct (str_leb x y); simpl; rewrite ?IH; intuition.
Qed.

Lemma sorted_In (z : str) (l : list str) : In z (sorted l) <-> In z l.
Proof.
  induction l as [|y l IH]; simpl; [tauto|].
  rewrite sorted_insert_In, IH. intuition.
Qed.

Lemma sorted_insert_strict (x : str) (l : list str) :
  StronglySorted str_lt l -> ~ In x l ->
  StronglySorted str_lt (sorted_insert x l).
Proof.
  induction l as [|y l IH]; intros S N; simpl.
  - repeat constructor.
  - apply StronglySorted_inv in S; destruct S as [S F].
    unfold str_leb. destruct (str_ltb y x) eqn:E; simpl.
    + constructor.
      * apply IH; [exact S | intros H; apply N; now right].
      * apply Forall_forall; intros z Hz.
        apply sorted_insert_In in Hz; destruct Hz as [-> | Hz]; [exact E|].
        rewrite Forall_forall in F; now apply F.
    + assert (L : str_lt x y).
      { destruct (str_ltb_total x y) as [H | [H | H]]; [exact H | | congruence].
        exfalso; apply N; now left. }
      constructor; [now constructor|].
      constructor; [exact L|].
      eapply Forall_impl; [|exact F].
      intros z Hz; exact (str_ltb_trans _ _ _ L Hz).
Qed.

Lemma sorted_strict (l : list str) :
  NoDup l -> StronglySorted str_lt (sorted l).
Proof.
  induction 1 as [|x l N D IH]; simpl; [constructor|].
  apply sorted_insert_strict; [exact IH|].
  now rewrite sorted_In.
Qed.

Lemma strict_NoDup (l : list str) : StronglySorted str_lt l -> NoDup l.
Proof.
  induction 1 as [|x l S IH F]; constructor; [|exact IH].
  intros H. rewrite Forall_forall in F. specialize (F _ H).
  unfold str_lt in F. now rewrite str_ltb_irrefl in F.
Qed.

Lemma strict_ascending (l : list str) :
  StronglySorted str_lt l -> StronglySorted str_le l.
Proof.
  induction 1 as [|x l S IH F]; constructor; [exact IH|].
  eapply Forall_impl; [|exact F]. intros z; apply str_lt_le.
Qed.

(** ** The fallback chain *)

Lemma bind_fst {A B} (m : M A) (k : A -> M B) (w : world) :
  fst (bind m k w) =
    fst (m w) ++ match snd (m w) with
                 | Ret a => fst (k a w)
                 | Raise _ => []
                 end.
Proof.
  unfold bind. destruct (m w) as [t [a | e]]; simpl.
  - destruct (k a w); reflexivity.
  - now rewrite app_nil_r.
Qed.

Lemma bind_snd {A B} (m : M A) (k : A -> M B) (w : world) :
  snd (bind m k w) =
    match snd (m w) with
    | Ret a => snd (k a w)
    | Raise e => Raise e
    end.
Proof.
  unfold bind. destruct (m w) as [t [a | e]]; simpl; [|reflexivity].
  destruct (k a w); reflexivity.
Qed.

(** The three ways one attempt ends. *)
Lemma fallback_attempt_cases (w : world) (cmd : list str) (desc : str) :
  (gives_nothing (run w cmd) = true /\
   KaliTTS.fallback_attempt cmd desc w = ([Run cmd], Ret None))
  \/ (exists p, run w cmd = Ret p /\ returncode p = 0%Z /\
        strip (stdout p) <> [] /\
        KaliTTS.fallback_attempt cmd desc w =
          ([Run cmd; Print (MsgGotVia desc)],
           Ret (Some (Some (strip (stdout p))))))
  \/ (exists e, run w cmd = Raise e /\ e <> FileNotFoundError /\
        KaliTTS.fallback_attempt cmd desc w = ([Run cmd], Raise e)).
Proof.
  unfold KaliTTS.fallback_attempt; run_monad.
  destruct (run w cmd) as [p | e] eqn:R; simpl.
  - destruct ((returncode p =? 0)%Z && truthy (strip (stdout p))) eqn:C.
    + right; left; exists p.
      apply andb_true_iff in C; destruct C as [C1 C2].
      apply Z.eqb_eq in C1. apply truthy_true in C2. auto.
    + left; auto.
  - destruct e; simpl; try (right; right; eexists; repeat split; congruence).
    left; auto.
Qed.

Lemma fallback_attempt_nothing (w : world) (cmd : list str) (desc : str) :
  gives_nothing (run w cmd) = true ->
  KaliTTS.fallback_attempt cmd desc w = ([Run cmd], Ret None).
Proof.
  intros G.
  destruct (fallback_attempt_cases w cmd desc)
    as [[_ H] | [(p & R & C & S & _) | (e & R & N & _)]]; [exact H | |].
  - rewrite R in G; simpl in G. apply truthy_true in S.
    rewrite C, S in G. discriminate.
  - rewrite R in G. destruct e; simpl in G; congruence.
Qed.

Lemma fallback_attempt_success (w : world) (cmd : list str) (desc : str)
    (p : completed) :
  run w cmd = Ret p -> returncode p = 0%Z -> strip (stdout p) <> [] ->
  KaliTTS.fallback_attempt cmd desc w =
    ([Run cmd; Print (MsgGotVia desc)], Ret (Some (Some (strip (stdout p))))).
Proof.
  intros R C S.
  destruct (fallback_attempt_cases w cmd desc)
    as [[G _] | [(p' & R' & _ & _ & H) | (e & R' & _)]].
  - rewrite R in G; simpl in G. apply truthy_true in S.
    rewrite C, S in G. discriminate.
  - rewrite R in R'. inversion R'; subst p'. exact H.
  - congruence.
Qed.

(** The loop stops at the first attempt that gives a text. *)
Lemma fallback_loop_first (w : world) (pre post : list (list str * str))
    (cmd : list str) (desc : str) (p : completed) :
  Forall (fun m => gives_nothing (run w (fst m)) = true) pre ->
  run w cmd = Ret p -> returncode p = 0%Z -> strip (stdout p) <> [] ->
  KaliTTS.fallback_loop (pre ++ (cmd, desc) :: post) w =
    (List.map (fun m => Run (fst m)) pre ++ [Run cmd; Print (MsgGotVia desc)],
     Ret (Some (strip (stdout p)))).
Proof.
  intros F R C S. induction F as [| [c d] pre G F IH]; simpl.
  - unfold bind. rewrite (fallback_attempt_success w cmd desc p R C S).
    reflexivity.
  - unfold bind at 1. rewrite (fallback_attempt_nothing w c d G).
    simpl in IH. rewrite IH. reflexivity.
Qed.

(** When no attempt gives a text, all are made and the answer is [None]. *)
Lemma fallback_loop_none (w : world) (ms : list (list str * str)) :
  Forall (fun m => gives_nothing (run w (fst m)) = true) ms ->
  KaliTTS.fallback_loop ms w =
    (List.map (fun m => Run (fst m)) ms, Ret None).
Proof.
  induction 1 as [| [c d] ms G F IH]; simpl; [reflexivity|].
  unfold bind at 1. rewrite (fallback_attempt_nothing w c d G).
  rewrite IH. reflexivity.
Qed.

Lemma fallback_attempt_raises (w : world) (cmd : list str) (desc : str)
    (e : exn) :
  run w cmd = Raise e -> e <> FileNotFoundError ->
  KaliTTS.fallback_attempt cmd desc w = ([Run cmd], Raise e).
Proof.
  intros R N.
  destruct (fallback_attempt_cases w cmd desc)
    as [[G _] | [(p & R' & _) | (e' & R' & _ & H)]].
  - rewrite R in G. destruct e; simpl in G; congruence.
  - congruence.
  - rewrite R in R'. inversion R'; subst e'. exact H.
Qed.

Lemma fallback_loop_raises (w : world) (pre post : list (list str * str))
    (cmd : list str) (desc : str) (e : exn) :
  Forall (fun m => gives_nothing (run w (fst m)) = true) pre ->
  run w cmd = Raise e -> e <> FileNotFoundError ->
  KaliTTS.fallback_loop (pre ++ (cmd, desc) :: post) w =
    (List.map (fun m => Run (fst m)) pre ++ [Run cmd], Raise e).
Proof.
  intros F R N. induction F as [| [c d] pre G F IH]; simpl.
  - unfold bind. now rewrite (fallback_attempt_raises w cmd desc e R N).
  - unfold bind at 1. rewrite (fallback_attempt_nothing w c d G).
    simpl in IH. rewrite IH. reflexivity.
Qed.

(** An attempt gives no text, gives a text, or raises. *)
Lemma attempt_trichotomy (r : result completed) :
  gives_nothing r = true
  \/ (exists p, r = Ret p /\ returncode p = 0%Z /\ strip (stdout p) <> [])
  \/ (exists e, r = Raise e /\ e <> FileNotFoundError).
Proof.
  destruct r as [p | e]; simpl.
  - destruct (Z.eqb_spec (returncode p) 0) as [E | E]; [|now left].
    destruct (truthy (strip (stdout p))) eqn:T; [|now left].
    right; left. exists p. apply truthy_true in T. auto.
  - destruct e; try (right; right; eexists; split;
                     [reflexivity | discriminate]).
    now left.
Qed.

(** How a chain of attempts ends: at the first tool that gives a text,
    at the first tool that raises, or after all of them. *)
Lemma chain_cases (w : world) (ms : list (list str * str)) :
  (exists pre cmd desc post p,
     ms = pre ++ (cmd, desc) :: post
     /\ Forall (fun m => gives_nothing (run w (fst m)) = true) pre
     /\ run w cmd = Ret p /\ returncode p = 0%Z /\ strip (stdout p) <> [])
  \/ Forall (fun m => gives_nothing (run w (fst m)) = true) ms
  \/ (exists pre cmd desc post e,
        ms = pre ++ (cmd, desc) :: post
        /\ Forall (fun m => gives_nothing (run w (fst m)) = true) pre
        /\ run w cmd = Raise e /\ e <> FileNotFoundError).
Proof.
  induction ms as [| [c d] ms IH]; [right; left; constructor|].
  destruct (attempt_trichotomy (run w c))
    as [G | [(p & R & C & S) | (e & R & N)]].
  - destruct IH as [(pre & cmd & desc & post & p & -> & F & H)
                   | [F | (pre & cmd & desc & post & e & -> & F & H)]].
    + left. exists ((c, d) :: pre), cmd, desc, post, p.
      split; [reflexivity|]. split; [now constructor | exact H].
    + right; left. now constructor.
    + right; right. exists ((c, d) :: pre), cmd, desc, post, e.
      split; [reflexivity|]. split; [now constructor | exact H].
  - left. exists [], c, d, ms, p. repeat split; auto.
  - right; right. exists [], c, d, ms, e. repeat split; auto.
Qed.



Lemma runs_app (a b : trace) : runs (a ++ b) = runs a ++ runs b.
Proof.
  induction a as [|[m|c|] a IH]; simpl; rewrite ?IH; reflexivity.
Qed.

Lemma runs_map_Run (ms : list (list str * str)) :
  runs (List.map (fun m => Run (fst m)) ms) = List.map fst ms.
Proof. induction ms as [|m ms IH]; simpl; rewrite ?IH; reflexivity. Qed.

(** [get_selected_text] on a clipboard that is empty or blank. *)
Lemma get_selected_text_blank (w : world) (t : str) :
  paste w = Ret t -> strip t = [] ->
  KaliTTS.get_selected_text w = ([Print MsgClipboardEmpty], Ret None).
Proof.
  intros P S. unfold KaliTTS.get_selected_text; run_monad.
  rewrite P, S; simpl. rewrite orb_true_r. reflexivity.
Qed.

(** [get_selected_text] on a clipboard with a text. *)
Lemma get_selected_text_text (w : world) (t : str) :
  paste w = Ret t -> strip t <> [] ->
  KaliTTS.get_selected_text w = ([], Ret (Some (strip t))).
Proof.
  intros P S. unfold KaliTTS.get_selected_text; run_monad.
  rewrite P. rewrite str_eqb_nil.
  assert (T : truthy t = true).
  { destruct t; [now elim S | reflexivity]. }
  apply truthy_true in S. rewrite T, S. reflexivity.
Qed.

(** [get_selected_text] when pyperclip raises an [Exception]. *)
Lemma get_selected_text_raises (w : world) (e : exn) :
  paste w = Raise e -> is_Exception e = true ->
  KaliTTS.get_selected_text w =
    (Print (MsgClipboardError e) :: fst (KaliTTS._fallback_get_text w),
     snd (KaliTTS._fallback_get_text w)).
Proof.
  intros P E. unfold KaliTTS.get_selected_text; run_monad.
  rewrite P, E.
  destruct (KaliTTS._fallback_get_text w) as [tr r]; destruct r; reflexivity.
Qed.

(** ** Text acquisition *)

(** C1 (as stated, refuted): the clipboard holds only white space and
    the first tool of the chain would give "hello", yet
    [get_selected_text] launches nothing and returns [None]. *)
Lemma blank_clipboard_skips_fallback :
  paste blank_clipboard = Ret (lit "  ")
  /\ strip (lit "  ") = []
  /\ run blank_clipboard xclip_primary = ended 0 "hello"
  /\ runs (fst (KaliTTS.get_selected_text blank_clipboard)) = []
  /\ snd (KaliTTS.get_selected_text blank_clipboard) = Ret None.
Proof. repeat split. Qed.

(** C1 (amended): whenever pyperclip returns a string, no fallback
    command is launched, and on an empty or blank string
    [get_selected_text] prints the notice and returns [None]; nothing is
    launched either when pyperclip raises outside [Exception].  The chain
    runs when pyperclip raises an [Exception], in the order xclip
    primary, xclip clipboard, xsel primary, each tool only after every
    earlier one gave no text (not installed, non-zero status or blank
    output).  It ends at the first tool that exits with status 0 and a
    non-blank output, whose trimmed output is returned; or at the first
    tool that raises anything but [FileNotFoundError], which is raised;
    or after the three tools, with [None].  One of the three happens. *)
Theorem get_selected_text_fallback_order (w : world) :
  KaliTTS.methods =
    [(xclip_primary, lit "X11 primary selection");
     (xclip_clipboard, lit "X11 clipboard");
     (xsel_primary, lit "XSel primary")]
  /\ (forall s, paste w = Ret s ->
        runs (fst (KaliTTS.get_selected_text w)) = [])
  /\ (forall t, paste w = Ret t -> strip t = [] ->
        KaliTTS.get_selected_text w = ([Print MsgClipboardEmpty], Ret None))
  /\ (forall e, paste w = Raise e -> is_Exception e = false ->
        runs (fst (KaliTTS.get_selected_text w)) = [])
  /\ (forall e pre cmd desc post p,
        paste w = Raise e -> is_Exception e = true ->
        KaliTTS.methods = pre ++ (cmd, desc) :: post ->
        Forall (fun m => gives_nothing (run w (fst m)) = true) pre ->
        run w cmd = Ret p -> returncode p = 0%Z -> strip (stdout p) <> [] ->
        runs (fst (KaliTTS.get_selected_text w)) = List.map fst pre ++ [cmd]
        /\ snd (KaliTTS.get_selected_text w) = Ret (Some (strip (stdout p))))
  /\ (forall e,
        paste w = Raise e -> is_Exception e = true ->
        Forall (fun m => gives_nothing (run w (fst m)) = true) KaliTTS.methods ->
        runs (fst (KaliTTS.get_selected_text w)) =
          [xclip_primary; xclip_clipboard; xsel_primary]
        /\ snd (KaliTTS.get_selected_text w) = Ret None)
  /\ (forall e pre cmd desc post e',
        paste w = Raise e -> is_Exception e = true ->
        KaliTTS.methods = pre ++ (cmd, desc) :: post ->
        Forall (fun m => gives_nothing (run w (fst m)) = true) pre ->
        run w cmd = Raise e' -> e' <> FileNotFoundError ->
        runs (fst (KaliTTS.get_selected_text w)) = List.map fst pre ++ [cmd]
        /\ snd (KaliTTS.get_selected_text w) = Raise e')
  /\ ((exists pre cmd desc post p,
         KaliTTS.methods = pre ++ (cmd, desc) :: post
         /\ Forall (fun m => gives_nothing (run w (fst m)) = true) pre
         /\ run w cmd = Ret p /\ returncode p = 0%Z
         /\ strip (stdout p) <> [])
      \/ Forall (fun m => gives_nothing (run w (fst m)) = true) KaliTTS.methods
      \/ (exists pre cmd desc post e',
            KaliTTS.methods = pre ++ (cmd, desc) :: post
            /\ Forall (fun m => gives_nothing (run w (fst m)) = true) pre
            /\ run w cmd = Raise e' /\ e' <> FileNotFoundError)).
Proof.
  split; [reflexivity|].
  split.
  { intros s P. destruct (strip s) as [|c r] eqn:S.
    - now rewrite (get_selected_text_blank w s P S).
    - rewrite (get_selected_text_text w s P); [reflexivity|].
      rewrite S; discriminate. }
  split; [intros t P S; now apply get_selected_text_blank with t|].
  split.
  { intros e P E. unfold KaliTTS.get_selected_text; run_monad.
    now rewrite P, E. }
  split.
  { intros e pre cmd desc post p P E M F R C S.
    rewrite (get_selected_text_raises w e P E).
    unfold KaliTTS._fallback_get_text. rewrite M.
    rewrite (fallback_loop_first w pre post cmd desc p F R C S).
    simpl. rewrite runs_app, runs_map_Run. auto. }
  split.
  { intros e P E F.
    rewrite (get_selected_text_raises w e P E).
    unfold KaliTTS._fallback_get_text.
    rewrite (fallback_loop_none w _ F). auto. }
  split.
  { intros e pre cmd desc post e' P E M F R N.
    rewrite (get_selected_text_raises w e P E).
    unfold KaliTTS._fallback_get_text. rewrite M.
    rewrite (fallback_loop_raises w pre post cmd desc e' F R N).
    simpl. rewrite runs_app, runs_map_Run. auto. }
  apply chain_cases.
Qed.

Lemma get_selected_text_fallback_order_witness :
  runs (fst (KaliTTS.get_selected_text clipboard_hi)) = []
  /\ (KaliTTS.get_selected_text blank_clipboard =
        ([Print MsgClipboardEmpty], Ret None))
  /\ runs (fst (KaliTTS.get_selected_text
                  (with_paste blank_clipboard (Raise KeyboardInterrupt)))) = []
  /\ (runs (fst (KaliTTS.get_selected_text no_pyperclip)) =
        [xclip_primary; xclip_clipboard]
      /\ snd (KaliTTS.get_selected_text no_pyperclip) =
           Ret (Some (lit "picked")))
  /\ (runs (fst (KaliTTS.get_selected_text nothing_selected)) =
        [xclip_primary; xclip_clipboard; xsel_primary]
      /\ snd (KaliTTS.get_selected_text nothing_selected) = Ret None)
  /\ (runs (fst (KaliTTS.get_selected_text xclip_denied)) = [xclip_primary]
      /\ snd (KaliTTS.get_selected_text xclip_denied) = Raise OSError).
Proof.
  split; [|split; [|split; [|split; [|split]]]].
  - apply (proj1 (proj2 (get_selected_text_fallback_order clipboard_hi))
             (lit " hi ")); reflexivity.
  - apply (proj1 (proj2 (proj2 (get_selected_text_fallback_order
                                  blank_clipboard)))
             (lit "  ")); reflexivity.
  - apply (proj1 (proj2 (proj2 (proj2
             (get_selected_text_fallback_order
                (with_paste blank_clipboard (Raise KeyboardInterrupt))))))
             KeyboardInterrupt); reflexivity.
  - apply (proj1 (proj2 (proj2 (proj2 (proj2
             (get_selected_text_fallback_order no_pyperclip)))))
             PyperclipException
             [(xclip_primary, lit "X11 primary selection")]
             xclip_clipboard (lit "X11 clipboard")
             [(xsel_primary, lit "XSel primary")]
             {| returncode := 0; stdout := lit " picked " |});
      try reflexivity.
    + repeat constructor.
    + vm_compute; discriminate.
  - apply (proj1 (proj2 (proj2 (proj2 (proj2 (proj2
             (get_selected_text_fallback_order nothing_selected))))))
             PyperclipException); try reflexivity.
    repeat constructor.
  - apply (proj1 (proj2 (proj2 (proj2 (proj2 (proj2 (proj2
             (get_selected_text_fallback_order xclip_denied)))))))
             PyperclipException []
             xclip_primary (lit "X11 primary selection")
             [(xclip_clipboard, lit "X11 clipboard");
              (xsel_primary, lit "XSel primary")]
             OSError); try reflexivity.
    + constructor.
    + discriminate.
Defined.




(** ** The synthesis command *)

Lemma espeak_cmd_plain (text voice : str) (speed pitch amplitude : Z) :
  KaliTTS.espeak_cmd text voice speed pitch amplitude None =
    [lit "espeak"; lit "-v"; voice; lit "-s"; str_of_int speed;
     lit "-p"; str_of_int pitch; lit "-a"; str_of_int amplitude;
     lit "--"; text].
Proof. reflexivity. Qed.

Lemma espeak_cmd_file (text voice : str) (speed pitch amplitude : Z)
    (path : str) :
  path <> [] ->
  KaliTTS.espeak_cmd text voice speed pitch amplitude (Some path) =
    [lit "espeak"; lit "-v"; voice; lit "-s"; str_of_int speed;
     lit "-p"; str_of_int pitch; lit "-a"; str_of_int amplitude;
     lit "--"; lit "-w"; path; text].
Proof.
  intros N. unfold KaliTTS.espeak_cmd.
  apply truthy_true in N. rewrite N. reflexivity.
Qed.

Lemma espeak_cmd_last (text voice : str) (speed pitch amplitude : Z)
    (output : option str) :
  last (KaliTTS.espeak_cmd text voice speed pitch amplitude output) [] = text.
Proof.
  destruct output as [[|c path]|]; reflexivity.
Qed.

Lemma espeak_cmd_is_synthesis (text voice : str) (speed pitch amplitude : Z)
    (output : option str) :
  is_synthesis (KaliTTS.espeak_cmd text voice speed pitch amplitude output)
  = true.
Proof.
  destruct output as [[|c path]|]; reflexivity.
Qed.

(** A notice whose strings are encodable is printed. *)
Lemma print_ok (m : message) (w : world) :
  forallb encodable (caller_strings m) = true ->
  print m w = ([Print m], Ret tt).
Proof. intros H. unfold print. now rewrite H. Qed.

(** [print] launches nothing and asks nothing. *)
Lemma print_quiet (m : message) (w : world) :
  runs (fst (print m w)) = [] /\ prompts (fst (print m w)) = 0.
Proof.
  unfold print. destruct (forallb encodable (caller_strings m)); auto.
Qed.

Lemma encodable_firstn (n : nat) (s : str) :
  encodable s = true -> encodable (slice_to n s) = true.
Proof.
  unfold encodable, slice_to. revert s.
  induction n as [|n IH]; intros [|c s] H; simpl in *; auto.
  apply andb_true_iff in H. destruct H as [H1 H2].
  rewrite H1. simpl. now apply IH.
Qed.

(** Reduces the test of [print] on the strings at hand. *)
Ltac printable :=
  unfold print; cbn [caller_strings forallb];
  repeat match goal with
         | H : encodable ?s = true |- context [encodable ?s] => rewrite H
         end;
  cbn [andb].

(** [text_to_speech], once its notices are printed, launches its
    command and nothing else. *)
Lemma text_to_speech_runs (w : world) (text voice : str)
    (speed pitch amplitude : Z) (output : option str) :
  encodable voice = true -> encodable_opt output = true ->
  runs (fst (KaliTTS.text_to_speech text voice speed pitch amplitude output w))
  = [KaliTTS.espeak_cmd text voice speed pitch amplitude output].
Proof.
  intros V O. unfold KaliTTS.text_to_speech.
  generalize (KaliTTS.espeak_cmd text voice speed pitch amplitude output).
  intros cmd. unfold try_except, bind, subprocess_run, ret.
  destruct output as [o|]; [destruct (truthy o)|]; simpl in O; printable;
    (destruct (run w cmd) as [p | e];
     [cbn [andb]; destruct (negb (returncode p =? 0)%Z) | destruct e];
     reflexivity).
Qed.

(** [text_to_speech] launches its command or, when a notice cannot be
    printed, nothing. *)
Lemma text_to_speech_runs_cases (w : world) (text voice : str)
    (speed pitch amplitude : Z) (output : option str) :
  runs (fst (KaliTTS.text_to_speech text voice speed pitch amplitude output w))
    = [KaliTTS.espeak_cmd text voice speed pitch amplitude output]
  \/ runs (fst (KaliTTS.text_to_speech text voice speed pitch amplitude
                  output w)) = [].
Proof.
  unfold KaliTTS.text_to_speech.
  generalize (KaliTTS.espeak_cmd text voice speed pitch amplitude output).
  intros cmd. unfold try_except, bind, subprocess_run, ret, print.
  cbn [caller_strings forallb].
  destruct output as [o|];
    [destruct (truthy o); [destruct (encodable o)|]|];
    cbn [andb]; try (now right);
    (destruct (encodable voice); cbn [andb]; [|now right]);
    (destruct (run w cmd) as [p | e];
     [cbn [andb]; destruct (negb (returncode p =? 0)%Z) | destruct e];
     now left).
Qed.

(** C4 (the code at the failing input): [tts -o out.wav -t hi].  The
    file-write flag and the path are inserted before the text but after
    the end-of-options marker: for the engine they are operands, as the
    text is, and no option [-w] is among the arguments read for options;
    the program still announces the file. *)
Theorem output_flag_after_marker :
  KaliTTS.espeak_cmd (lit "hi") (lit "ru") 160 50 100 (Some (lit "out.wav")) =
    [lit "espeak"; lit "-v"; lit "ru"; lit "-s"; lit "160";
     lit "-p"; lit "50"; lit "-a"; lit "100";
     lit "--"; lit "-w"; lit "out.wav"; lit "hi"]
  /\ before_marker
       (KaliTTS.espeak_cmd (lit "hi") (lit "ru") 160 50 100
          (Some (lit "out.wav"))) =
       [lit "espeak"; lit "-v"; lit "ru"; lit "-s"; lit "160";
        lit "-p"; lit "50"; lit "-a"; lit "100"]
  /\ after_marker
       (KaliTTS.espeak_cmd (lit "hi") (lit "ru") 160 50 100
          (Some (lit "out.wav"))) =
       [lit "-w"; lit "out.wav"; lit "hi"]
  /\ runs (fst (main ascii_lower
                  (tts (Some (lit "out.wav")) (Some (lit "hi")))
                  silent_engine)) =
       [espeak_version;
        KaliTTS.espeak_cmd (lit "hi") (lit "ru") 160 50 100
          (Some (lit "out.wav"))]
  /\ In (MsgSavedTo (lit "out.wav"))
        (printed (fst (main ascii_lower
                         (tts (Some (lit "out.wav")) (Some (lit "hi")))
                         silent_engine))).
Proof.
  split; [reflexivity|]. split; [reflexivity|]. split; [reflexivity|].
  split; [reflexivity|]. vm_compute. tauto.
Qed.

(** ** Sequencing *)

Lemma printed_app (a b : trace) : printed (a ++ b) = printed a ++ printed b.
Proof.
  induction a as [|[m|c|] a IH]; simpl; rewrite ?IH; reflexivity.
Qed.

Lemma init_ok (w : world) :
  espeak_present w -> KaliTTS.init w = ([Run espeak_version], Ret tt).
Proof.
  intros (p & R & C).
  unfold KaliTTS.init, KaliTTS.check_dependencies; run_monad.
  rewrite R, C. reflexivity.
Qed.

(** ** Speaking *)

(** What [text_to_speech] answers once its notices are printed, from
    what the launch gives. *)
Lemma text_to_speech_result (w : world) (text voice : str)
    (speed pitch amplitude : Z) (output : option str) :
  encodable voice = true -> encodable_opt output = true ->
  snd (KaliTTS.text_to_speech text voice speed pitch amplitude output w) =
    match run w (KaliTTS.espeak_cmd text voice speed pitch amplitude output) with
    | Ret p => Ret (returncode p =? 0)%Z
    | Raise (CalledProcessError _) => Ret false
    | Raise e => Raise e
    end.
Proof.
  intros V O. unfold KaliTTS.text_to_speech.
  generalize (KaliTTS.espeak_cmd text voice speed pitch amplitude output).
  intros cmd. unfold try_except, bind, subprocess_run, ret.
  destruct output as [o|]; [destruct (truthy o)|]; simpl in O; printable;
    (destruct (run w cmd) as [p | e];
     [cbn [andb]; destruct (returncode p =? 0)%Z | destruct e];
     reflexivity).
Qed.

Ltac on_speech tac :=
  match goal with
  | |- context [KaliTTS.text_to_speech ?t ?v ?s ?p ?a ?o ?w] =>
      tac (KaliTTS.text_to_speech t v s p a o w)
  end.

Lemma speak_runs (a : args) (text : str) (w : world) :
  speakable a text ->
  runs (fst (speak a text w)) =
    [KaliTTS.espeak_cmd text (voice a) (speed a) (pitch a) (amplitude a)
       (output a)].
Proof.
  intros (T & V & O). apply (encodable_firstn 150) in T.
  pose proof (text_to_speech_runs w text (voice a) (speed a) (pitch a)
                (amplitude a) (output a) V O) as R.
  unfold speak, bind.
  destruct (output a) as [o|]; simpl in O; printable;
    on_speech ltac:(fun c => destruct c as [t [[|] | e]]);
    simpl in *; try destruct (truthy o);
    simpl; rewrite ?runs_app, R; reflexivity.
Qed.

(** [speak], once its notices are printed, returns normally whatever
    status the engine exits with. *)
Lemma speak_result (a : args) (text : str) (w : world) :
  speakable a text ->
  snd (speak a text w) =
    match run w (KaliTTS.espeak_cmd text (voice a) (speed a) (pitch a)
                   (amplitude a) (output a)) with
    | Ret _ => Ret tt
    | Raise (CalledProcessError _) => Ret tt
    | Raise e => Raise e
    end.
Proof.
  intros (T & V & O). apply (encodable_firstn 150) in T.
  pose proof (text_to_speech_result w text (voice a) (speed a) (pitch a)
                (amplitude a) (output a) V O) as R.
  unfold speak, bind.
  destruct (output a) as [o|]; simpl in O; printable;
    on_speech ltac:(fun c => destruct c as [t [b | e]]);
    simpl in *;
    (destruct (run w _) as [p | e']; [|destruct e']); try discriminate;
    try (inversion R; reflexivity);
    (destruct b; [|reflexivity]);
    try destruct (truthy o); reflexivity.
Qed.

(** [speak] reports a non-zero exit of the engine. *)
Lemma speak_failure_printed (a : args) (text : str) (w : world)
    (p : completed) :
  speakable a text ->
  run w (KaliTTS.espeak_cmd text (voice a) (speed a) (pitch a)
           (amplitude a) (output a)) = Ret p ->
  returncode p <> 0%Z ->
  In (MsgEspeakError (CalledProcessError (returncode p)))
     (printed (fst (speak a text w)))
  /\ In MsgSpeakFailed (printed (fst (speak a text w))).
Proof.
  intros (T & V & O) R N. apply Z.eqb_neq in N.
  apply (encodable_firstn 150) in T.
  unfold speak, KaliTTS.text_to_speech.
  revert R.
  generalize (KaliTTS.espeak_cmd text (voice a) (speed a) (pitch a)
                (amplitude a) (output a)).
  intros cmd R. unfold try_except, bind, subprocess_run, ret.
  destruct (output a) as [o|]; [destruct (truthy o)|]; simpl in O; printable;
    rewrite R, N; simpl; tauto.
Qed.

Section MainFacts.

Variable lower : str -> str.

Lemma confirm_short (a : args) (text : str) (w : world) :
  (len text <= 1000)%Z ->
  confirm_and_speak lower a text w = speak a text w.
Proof.
  intros L. unfold confirm_and_speak.
  destruct (Z.gtb_spec (len text) 1000); [lia | reflexivity].
Qed.

Lemma confirm_declined (a : args) (text c : str) (w : world) :
  (len text > 1000)%Z -> input w = Ret c -> lower c <> lit "y" ->
  confirm_and_speak lower a text w =
    ([Print (MsgTooLong (len text)); Input; Print MsgCancelled], Ret tt).
Proof.
  intros L I N. unfold confirm_and_speak.
  destruct (Z.gtb_spec (len text) 1000); [|lia].
  run_monad. rewrite I.
  destruct (str_eqb (lower c) (lit "y")) eqn:E; [|reflexivity].
  apply str_eqb_eq in E. contradiction.
Qed.

Lemma confirm_accepted (a : args) (text c : str) (w : world) :
  (len text > 1000)%Z -> input w = Ret c -> lower c = lit "y" ->
  confirm_and_speak lower a text w =
    (Print (MsgTooLong (len text)) :: Input :: fst (speak a text w),
     snd (speak a text w)).
Proof.
  intros L I Y. unfold confirm_and_speak.
  destruct (Z.gtb_spec (len text) 1000); [|lia].
  unfold bind at 1 2. unfold print, py_input at 1. rewrite I, Y. simpl.
  destruct (speak a text w); reflexivity.
Qed.

(** [main] in normal mode: the probe, the acquisition, then the rest. *)
Lemma main_normal (a : args) (w : world) :
  espeak_present w -> list_voices a = false -> test a = false ->
  main lower a w =
    (Run espeak_version ::
       fst (acquire a w) ++
       match snd (acquire a w) with
       | Ret text => fst (confirm_and_speak lower a text w)
       | Raise _ => []
       end,
     match snd (acquire a w) with
     | Ret text => snd (confirm_and_speak lower a text w)
     | Raise e => Raise e
     end).
Proof.
  intros P L T. unfold main. rewrite L, T.
  unfold bind at 1. rewrite (init_ok w P).
  destruct (bind (acquire a) _ w) as [t r] eqn:E.
  pose proof (bind_fst (acquire a) (fun text => confirm_and_speak lower a text) w) as F.
  pose proof (bind_snd (acquire a) (fun text => confirm_and_speak lower a text) w) as S.
  rewrite E in F, S. simpl in F, S. subst t r. reflexivity.
Qed.

End MainFacts.

Lemma acquire_explicit (a : args) (t : str) (w : world) :
  text a = Some t -> t <> [] -> encodable t = true ->
  acquire a w = ([Print (MsgTextFromArgs (slice_to 100 t))], Ret t).
Proof.
  intros T N E. apply (encodable_firstn 100) in E. unfold acquire. rewrite T.
  apply truthy_true in N. rewrite N. unfold bind, ret. printable.
  reflexivity.
Qed.

Lemma acquire_clipboard (a : args) (w : world) :
  truthy_opt (text a) = false -> acquire a w = from_clipboard w.
Proof.
  unfold acquire, truthy_opt. destruct (text a) as [t|]; [|reflexivity].
  intros ->. reflexivity.
Qed.

Lemma from_clipboard_none (w : world) :
  snd (KaliTTS.get_selected_text w) = Ret None ->
  from_clipboard w =
    (Print MsgAcquiring :: fst (KaliTTS.get_selected_text w) ++ [Print MsgNoText],
     Raise (SystemExit 1)).
Proof.
  intros H. unfold from_clipboard, no_text; run_monad.
  destruct (KaliTTS.get_selected_text w) as [t r]; simpl in *; subst r.
  reflexivity.
Qed.

(** ** The explicit text *)

(** C2 (as stated, refuted): [tts -t " hi "] hands " hi " to the engine,
    which is not the trimmed text "hi". *)
Lemma explicit_text_not_trimmed :
  text (tts None (Some (lit " hi "))) = Some (lit " hi ")
  /\ spoken (fst (main ascii_lower (tts None (Some (lit " hi "))) clipboard_hi))
     = [lit " hi "]
  /\ strip (lit " hi ") = lit "hi"
  /\ spoken (fst (main ascii_lower (tts None (Some (lit " hi "))) clipboard_hi))
     <> [strip (lit " hi ")].
Proof. repeat split. vm_compute. discriminate. Qed.

(** C2 (amended): in normal mode, a non-empty [--text] that is at most
    1000 characters long, or that the user confirms, and that the
    standard output can encode, as it can the voice and the output path
    (the notices that show them are printed before the synthesis), is
    handed to [text_to_speech] as it is, without trimming: the only
    synthesis command launched is the one built from this very string,
    and the string is its last argument. *)
Theorem explicit_text_spoken_verbatim (lower : str -> str) (a : args)
    (w : world) (t : str) :
  espeak_present w -> list_voices a = false -> test a = false ->
  text a = Some t -> t <> [] -> speakable a t ->
  ((len t <= 1000)%Z \/ exists c, input w = Ret c /\ lower c = lit "y") ->
  filter is_synthesis (runs (fst (main lower a w))) =
    [KaliTTS.espeak_cmd t (voice a) (speed a) (pitch a) (amplitude a)
       (output a)]
  /\ last (KaliTTS.espeak_cmd t (voice a) (speed a) (pitch a) (amplitude a)
             (output a)) [] = t
  /\ spoken (fst (main lower a w)) = [t].
Proof.
  intros P L T E N S C.
  assert (R : runs (fst (main lower a w)) =
              [espeak_version;
               KaliTTS.espeak_cmd t (voice a) (speed a) (pitch a)
                 (amplitude a) (output a)]).
  { rewrite (main_normal lower a w P L T),
      (acquire_explicit a t w E N (proj1 S)).
    simpl. f_equal.
    destruct (Z.gtb_spec (len t) 1000) as [G | G].
    - destruct C as [C | (c & I & Y)]; [lia|].
      rewrite (confirm_accepted lower a t c w); [|lia|exact I|exact Y].
      simpl. now apply speak_runs.
    - rewrite (confirm_short lower a t w G). now apply speak_runs. }
  unfold spoken. rewrite R. simpl.
  rewrite espeak_cmd_is_synthesis. simpl. rewrite !espeak_cmd_last. auto.
Qed.

Lemma explicit_text_spoken_verbatim_witness :
  filter is_synthesis
    (runs (fst (main ascii_lower (tts None (Some (lit " hi "))) clipboard_hi))) =
    [KaliTTS.espeak_cmd (lit " hi ") (lit "ru") 160 50 100 None]
  /\ last (KaliTTS.espeak_cmd (lit " hi ") (lit "ru") 160 50 100 None) []
     = lit " hi "
  /\ spoken (fst (main ascii_lower (tts None (Some (lit " hi "))) clipboard_hi))
     = [lit " hi "].
Proof.
  apply (explicit_text_spoken_verbatim ascii_lower
           (tts None (Some (lit " hi "))) clipboard_hi (lit " hi ")).
  - exists {| returncode := 0; stdout := lit "" |}. split; reflexivity.
  - reflexivity.
  - reflexivity.
  - reflexivity.
  - discriminate.
  - repeat split.
  - left. vm_compute. discriminate.
Defined.

(** ** Failures of the synthesis *)

(** In normal mode, a synthesis that exits with a non-zero status is
    reported and [main] returns: the exit status is 0. *)
Lemma synthesis_failure_exits_0 (lower : str -> str) (a : args) (w : world)
    (t : str) (p : completed) :
  espeak_present w -> list_voices a = false -> test a = false ->
  text a = Some t -> t <> [] -> speakable a t -> (len t <= 1000)%Z ->
  run w (KaliTTS.espeak_cmd t (voice a) (speed a) (pitch a) (amplitude a)
           (output a)) = Ret p ->
  returncode p <> 0%Z ->
  In MsgSpeakFailed (printed (fst (main lower a w)))
  /\ process_outcome (snd (main lower a w)) = Exited 0.
Proof.
  intros P L T E N K S R C.
  rewrite (main_normal lower a w P L T),
    (acquire_explicit a t w E N (proj1 K)).
  simpl. rewrite (confirm_short lower a t w S). split.
  - right. apply (speak_failure_printed a t w p K R C).
  - rewrite (speak_result a t w K), R. reflexivity.
Qed.

(** C3 (the code at the failing input): [tts -t hi] with an engine that
    exits with status 1 on the synthesis.  The error of the engine and
    the failure are printed, and the program ends with status 0. *)
Theorem synthesis_failure_exit_status :
  run engine_fails (KaliTTS.espeak_cmd (lit "hi") (lit "ru") 160 50 100 None)
    = ended 1 ""
  /\ In (MsgEspeakError (CalledProcessError 1))
       (printed (fst (main ascii_lower (tts None (Some (lit "hi"))) engine_fails)))
  /\ In MsgSpeakFailed
       (printed (fst (main ascii_lower (tts None (Some (lit "hi"))) engine_fails)))
  /\ process_outcome
       (snd (main ascii_lower (tts None (Some (lit "hi"))) engine_fails))
     = Exited 0.
Proof.
  split; [reflexivity|].
  split; [vm_compute; tauto|].
  split; [vm_compute; tauto|].
  reflexivity.
Qed.

(** An exception of the launch other than [CalledProcessError] leaves
    [text_to_speech]. *)
Lemma text_to_speech_propagates (w : world) (text voice : str)
    (speed pitch amplitude : Z) (output : option str) (e : exn) :
  encodable voice = true -> encodable_opt output = true ->
  run w (KaliTTS.espeak_cmd text voice speed pitch amplitude output) = Raise e ->
  (forall rc, e <> CalledProcessError rc) ->
  snd (KaliTTS.text_to_speech text voice speed pitch amplitude output w)
  = Raise e.
Proof.
  intros V O R N. rewrite (text_to_speech_result _ _ _ _ _ _ _ V O), R.
  destruct e as [| | rc | | | | | | | |]; try reflexivity. now elim (N rc).
Qed.

(** C6 (the code at the failing input): [tts -t hi] when the launch of
    the synthesis raises [OSError].  [text_to_speech] does not return
    [False]: the exception leaves it, and [main], uncaught. *)
Theorem launch_failure_escapes :
  run engine_unlaunchable
    (KaliTTS.espeak_cmd (lit "hi") (lit "ru") 160 50 100 None) = Raise OSError
  /\ snd (KaliTTS.text_to_speech (lit "hi") (lit "ru") 160 50 100 None
            engine_unlaunchable) = Raise OSError
  /\ process_outcome
       (snd (main ascii_lower (tts None (Some (lit "hi"))) engine_unlaunchable))
     = Crashed OSError.
Proof. repeat split. Qed.

(** ** No text, and the long text *)

Lemma fallback_loop_no_synthesis (w : world) (ms : list (list str * str)) :
  Forall (fun m => is_synthesis (fst m) = false) ms ->
  filter is_synthesis (runs (fst (KaliTTS.fallback_loop ms w))) = [].
Proof.
  induction 1 as [| [c d] ms N F IH]; simpl; [reflexivity|].
  simpl in N. rewrite bind_fst, runs_app, filter_app.
  destruct (fallback_attempt_cases w c d)
    as [[_ H] | [(p & _ & _ & _ & H) | (e & _ & _ & H)]];
    rewrite H; simpl; rewrite N; simpl; [exact IH | reflexivity | reflexivity].
Qed.

Lemma get_selected_text_no_synthesis (w : world) :
  filter is_synthesis (runs (fst (KaliTTS.get_selected_text w))) = [].
Proof.
  destruct (paste w) as [s | e] eqn:P.
  - destruct (strip s) as [|c r] eqn:S.
    + now rewrite (get_selected_text_blank w s P S).
    + rewrite (get_selected_text_text w s P); [reflexivity|].
      rewrite S; discriminate.
  - destruct (is_Exception e) eqn:E.
    + rewrite (get_selected_text_raises w e P E). simpl.
      apply fallback_loop_no_synthesis. repeat constructor.
    + unfold KaliTTS.get_selected_text; run_monad. now rewrite P, E.
Qed.

Lemma from_clipboard_no_synthesis (w : world) :
  filter is_synthesis (runs (fst (from_clipboard w))) = [].
Proof.
  pose proof (get_selected_text_no_synthesis w) as R.
  unfold from_clipboard, no_text, bind, print, sys_exit, raise, ret.
  destruct (KaliTTS.get_selected_text w) as [tr [[t|] | e]];
    [destruct (truthy t)| |]; simpl in *;
    rewrite ?runs_app, ?filter_app, R; reflexivity.
Qed.

(** Acquiring the text launches no synthesis. *)
Lemma acquire_no_synthesis (a : args) (w : world) :
  filter is_synthesis (runs (fst (acquire a w))) = [].
Proof.
  unfold acquire. destruct (text a) as [t|]; [destruct (truthy t)|];
    try apply from_clipboard_no_synthesis.
  unfold bind, ret, print.
  destruct (forallb encodable _); reflexivity.
Qed.

(** C7: in normal mode without an explicit text, when the clipboard is
    empty or blank, or pyperclip raises and none of the three tools gives
    a text, [main] prints the advice, exits with status 1 and launches
    no synthesis. *)
Theorem no_text_exits_without_synthesis (lower : str -> str) (a : args)
    (w : world) :
  espeak_present w -> list_voices a = false -> test a = false ->
  truthy_opt (text a) = false ->
  ((exists t, paste w = Ret t /\ strip t = []) \/
   (exists e, paste w = Raise e /\ is_Exception e = true /\
      Forall (fun m => gives_nothing (run w (fst m)) = true) KaliTTS.methods)) ->
  In (Print MsgNoText) (fst (main lower a w))
  /\ process_outcome (snd (main lower a w)) = Exited 1
  /\ filter is_synthesis (runs (fst (main lower a w))) = [].
Proof.
  intros P L T E C.
  assert (G : snd (KaliTTS.get_selected_text w) = Ret None).
  { destruct C as [(t & Pt & S) | (e & Pe & Ex & F)].
    - now rewrite (get_selected_text_blank w t Pt S).
    - rewrite (get_selected_text_raises w e Pe Ex).
      unfold KaliTTS._fallback_get_text.
      now rewrite (fallback_loop_none w _ F). }
  rewrite (main_normal lower a w P L T), (acquire_clipboard a w E).
  pose proof (from_clipboard_no_synthesis w) as NS.
  rewrite (from_clipboard_none w G) in *. simpl in *.
  split; [|split].
  - right; right. rewrite app_nil_r. apply in_or_app. right. now left.
  - reflexivity.
  - rewrite app_nil_r. exact NS.
Qed.

Lemma no_text_exits_without_synthesis_witness :
  In (Print MsgNoText) (fst (main ascii_lower (tts None None) nothing_selected))
  /\ process_outcome (snd (main ascii_lower (tts None None) nothing_selected))
     = Exited 1
  /\ filter is_synthesis
       (runs (fst (main ascii_lower (tts None None) nothing_selected))) = [].
Proof.
  apply (no_text_exits_without_synthesis ascii_lower (tts None None)
           nothing_selected).
  - exists {| returncode := 0; stdout := lit "eSpeak" |}. split; reflexivity.
  - reflexivity.
  - reflexivity.
  - reflexivity.
  - right. exists PyperclipException.
    split; [reflexivity|]. split; [reflexivity|]. repeat constructor.
Defined.

(** C8: in normal mode, when the text acquired is longer than 1000
    characters and the answer to the question is not "y" in lower case,
    [main] prints the cancellation, launches no synthesis and ends with
    status 0. *)
Theorem long_text_declined (lower : str -> str) (a : args) (w : world)
    (t c : str) :
  espeak_present w -> list_voices a = false -> test a = false ->
  snd (acquire a w) = Ret t -> (len t > 1000)%Z ->
  input w = Ret c -> lower c <> lit "y" ->
  In (Print MsgCancelled) (fst (main lower a w))
  /\ filter is_synthesis (runs (fst (main lower a w))) = []
  /\ process_outcome (snd (main lower a w)) = Exited 0.
Proof.
  intros P L T A G I N.
  rewrite (main_normal lower a w P L T), A.
  rewrite (confirm_declined lower a t c w G I N). simpl.
  split; [|split].
  - right. apply in_or_app. right. simpl. tauto.
  - rewrite runs_app, filter_app, acquire_no_synthesis. reflexivity.
  - reflexivity.
Qed.

Lemma long_text_declined_witness :
  In (Print MsgCancelled)
     (fst (main ascii_lower (tts None (Some long_text)) clipboard_hi))
  /\ filter is_synthesis
       (runs (fst (main ascii_lower (tts None (Some long_text)) clipboard_hi)))
     = []
  /\ process_outcome
       (snd (main ascii_lower (tts None (Some long_text)) clipboard_hi))
     = Exited 0.
Proof.
  apply (long_text_declined ascii_lower (tts None (Some long_text))
           clipboard_hi long_text (lit "n")).
  - exists {| returncode := 0; stdout := lit "" |}. split; reflexivity.
  - reflexivity.
  - reflexivity.
  - reflexivity.
  - vm_compute. reflexivity.
  - reflexivity.
  - vm_compute. discriminate.
Defined.

(** ** The voices *)

Lemma collect_voices_spec (w : world) (lines acc : list str) :
  KaliTTS.collect_voices lines acc w =
    ([], if existsb one_field lines
         then Raise IndexError
         else Ret (acc ++ second_fields lines)).
Proof.
  revert acc; induction lines as [|line rest IH]; intros acc; simpl.
  - now rewrite app_nil_r.
  - unfold one_field at 1.
    destruct (split_ws line) as [|x [|y r]]; simpl.
    + apply IH.
    + reflexivity.
    + rewrite IH. destruct (existsb one_field rest); [reflexivity|].
      now rewrite <- app_assoc.
Qed.

Lemma enumerate_voices_spec (w : world) :
  KaliTTS.enumerate_voices w =
    ([Run espeak_voices],
     match run w espeak_voices with
     | Ret p =>
         if existsb one_field (voice_lines (stdout p))
         then Raise IndexError
         else Ret (sorted (set (second_fields (voice_lines (stdout p)))))
     | Raise e => Raise e
     end).
Proof.
  unfold KaliTTS.enumerate_voices, bind, subprocess_run.
  change [lit "espeak"; lit "--voices"] with espeak_voices.
  destruct (run w espeak_voices) as [p | e]; [|reflexivity].
  cbn [andb]. rewrite collect_voices_spec. unfold voice_lines.
  destruct (existsb one_field _); reflexivity.
Qed.

Lemma get_available_voices_spec (w : world) :
  KaliTTS.get_available_voices w =
    ([Run espeak_voices],
     match snd (KaliTTS.enumerate_voices w) with
     | Ret l => Ret l
     | Raise _ => Ret KaliTTS.fallback_voices
     end).
Proof.
  unfold KaliTTS.get_available_voices, try_except.
  rewrite enumerate_voices_spec. simpl.
  destruct (run w espeak_voices) as [p | e]; [|reflexivity].
  destruct (existsb one_field (voice_lines (stdout p))); reflexivity.
Qed.

(** C5 (as stated, refuted): the engine prints nothing, and the list
    returned is empty, not the list of five codes. *)
Lemma no_engine_output_gives_no_voices :
  run silent_engine espeak_voices = ended 0 ""
  /\ snd (KaliTTS.get_available_voices silent_engine) = Ret []
  /\ snd (KaliTTS.get_available_voices silent_engine)
     <> Ret KaliTTS.fallback_voices.
Proof. repeat split. discriminate. Qed.

(** C5 (amended): [get_available_voices] never raises.  It returns the
    list ru, en, de, fr, es when the launch of [espeak --voices] raises,
    and when a line after the header of the trimmed output has exactly
    one field.  On every other output it returns the sorted distinct
    second fields of the lines after the header; on an empty or blank
    output this is the empty list. *)
Theorem get_available_voices_fallback (w : world) :
  KaliTTS.fallback_voices = [lit "ru"; lit "en"; lit "de"; lit "fr"; lit "es"]
  /\ (exists l, snd (KaliTTS.get_available_voices w) = Ret l)
  /\ (forall e, run w espeak_voices = Raise e ->
        snd (KaliTTS.get_available_voices w) = Ret KaliTTS.fallback_voices)
  /\ (forall p, run w espeak_voices = Ret p ->
        existsb one_field (voice_lines (stdout p)) = true ->
        snd (KaliTTS.get_available_voices w) = Ret KaliTTS.fallback_voices)
  /\ (forall p, run w espeak_voices = Ret p ->
        existsb one_field (voice_lines (stdout p)) = false ->
        snd (KaliTTS.get_available_voices w) =
          Ret (sorted (set (second_fields (voice_lines (stdout p))))))
  /\ (forall p, run w espeak_voices = Ret p -> strip (stdout p) = [] ->
        snd (KaliTTS.get_available_voices w) = Ret []).
Proof.
  rewrite get_available_voices_spec, enumerate_voices_spec. simpl.
  split; [reflexivity|].
  split.
  { destruct (run w espeak_voices) as [p | e]; [|eauto].
    destruct (existsb one_field (voice_lines (stdout p))); eauto. }
  split; [intros e ->; reflexivity|].
  split; [intros p -> ->; reflexivity|].
  split; [intros p -> ->; reflexivity|].
  intros p -> S. unfold voice_lines. rewrite S. reflexivity.
Qed.

Lemma get_available_voices_fallback_witness :
  snd (KaliTTS.get_available_voices engine_missing)
    = Ret KaliTTS.fallback_voices
  /\ snd (KaliTTS.get_available_voices broken_table)
     = Ret KaliTTS.fallback_voices
  /\ snd (KaliTTS.get_available_voices three_voices)
     = Ret [lit "en"; lit "ru"]
  /\ snd (KaliTTS.get_available_voices silent_engine) = Ret [].
Proof.
  split; [|split; [|split]].
  - apply (proj1 (proj2 (proj2 (get_available_voices_fallback engine_missing)))
             FileNotFoundError).
    reflexivity.
  - apply (proj1 (proj2 (proj2 (proj2
             (get_available_voices_fallback broken_table))))
             {| returncode := 0;
                stdout := lit "Pty Language" ++ [10%N]
                          ++ lit " 5  ru  M  russian" ++ [10%N]
                          ++ lit "garbage" |});
      reflexivity.
  - apply (proj1 (proj2 (proj2 (proj2 (proj2
             (get_available_voices_fallback three_voices)))))
             {| returncode := 0;
                stdout := lit "Pty Language Age/Gender VoiceName" ++ [10%N]
                          ++ lit " 5  ru  M  russian" ++ [10%N]
                          ++ lit " 5  en  M  english" ++ [10%N]
                          ++ lit " 2  en  M  english-north" ++ [10%N] |});
      reflexivity.
  - apply (proj2 (proj2 (proj2 (proj2 (proj2
             (get_available_voices_fallback silent_engine)))))
             {| returncode := 0; stdout := lit "" |});
      reflexivity.
Defined.

(** C10 (as stated, refuted): without an engine the list returned is
    ru, en, de, fr, es, which is not in ascending order. *)
Lemma fallback_voices_not_sorted :
  run engine_missing espeak_voices = Raise FileNotFoundError
  /\ snd (KaliTTS.get_available_voices engine_missing)
     = Ret [lit "ru"; lit "en"; lit "de"; lit "fr"; lit "es"]
  /\ ~ Sorted str_le [lit "ru"; lit "en"; lit "de"; lit "fr"; lit "es"].
Proof.
  split; [reflexivity|]. split; [reflexivity|].
  intros S. apply Sorted_inv in S. destruct S as [_ H].
  apply HdRel_inv in H. vm_compute in H. discriminate.
Qed.

(** C10 (amended): [get_available_voices] always returns a list without
    duplicates.  When the enumeration succeeds the list is what it
    computed, in strictly ascending order; when it raises, the list is
    ru, en, de, fr, es in this order. *)
Theorem available_voices_order (w : world) :
  exists l,
    snd (KaliTTS.get_available_voices w) = Ret l
    /\ NoDup l
    /\ ((snd (KaliTTS.enumerate_voices w) = Ret l
         /\ StronglySorted str_lt l /\ StronglySorted str_le l)
        \/ ((exists e, snd (KaliTTS.enumerate_voices w) = Raise e)
            /\ l = [lit "ru"; lit "en"; lit "de"; lit "fr"; lit "es"])).
Proof.
  assert (F : NoDup KaliTTS.fallback_voices).
  { vm_compute.
    repeat (constructor; [simpl; intuition discriminate|]). constructor. }
  rewrite get_available_voices_spec, enumerate_voices_spec. simpl.
  destruct (run w espeak_voices) as [p | e].
  - destruct (existsb one_field (voice_lines (stdout p))).
    + exists KaliTTS.fallback_voices.
      split; [reflexivity|]. split; [exact F|]. right. eauto.
    + pose proof (sorted_strict _ (set_NoDup (second_fields (voice_lines (stdout p)))))
        as S.
      eexists. split; [reflexivity|].
      split; [now apply strict_NoDup|].
      left. split; [reflexivity|]. split; [exact S|].
      now apply strict_ascending.
  - exists KaliTTS.fallback_voices.
    split; [reflexivity|]. split; [exact F|]. right. eauto.
Qed.

(** ** Runs of the model *)

Example strip_example : strip (lit "  hi there  ") = lit "hi there".
Proof. reflexivity. Qed.

Example strip_no_break_space : strip [160; 104; 105; 8195]%N = lit "hi".
Proof. reflexivity. Qed.

Example split_lines_example :
  split_on 10%N [97; 10; 98; 10]%N = [[97]; [98]; []]%N.
Proof. reflexivity. Qed.

Example split_ws_example :
  split_ws (lit " 5  en   M  english ") =
    [lit "5"; lit "en"; lit "M"; lit "english"].
Proof. reflexivity. Qed.

Example str_of_int_example :
  (str_of_int 160, str_of_int 0, str_of_int (-7)) =
  (lit "160", lit "0", lit "-7").
Proof. reflexivity. Qed.

Example insert_example : insert (-1) 9%N [1; 2; 3]%N = [1; 2; 9; 3]%N.
Proof. reflexivity. Qed.

Example sorted_set_example :
  sorted (set [lit "ru"; lit "en"; lit "ru"; lit "de"]) =
    [lit "de"; lit "en"; lit "ru"].
Proof. reflexivity. Qed.

(** [tts -o out.wav -t hi]: the probe, the notices, the synthesis. *)
Example main_to_file :
  main ascii_lower (tts (Some (lit "out.wav")) (Some (lit "hi"))) silent_engine =
    ([Run espeak_version;
      Print (MsgTextFromArgs (lit "hi"));
      Print (MsgTextReceived 2);
      Print (MsgTextStart (lit "hi"));
      Print MsgStarting;
      Print (MsgSavingTo (lit "out.wav"));
      Print (MsgParams (lit "ru") 160 50);
      Run [lit "espeak"; lit "-v"; lit "ru"; lit "-s"; lit "160";
           lit "-p"; lit "50"; lit "-a"; lit "100";
           lit "--"; lit "-w"; lit "out.wav"; lit "hi"];
      Print (MsgSavedTo (lit "out.wav"))],
     Ret tt).
Proof. reflexivity. Qed.

(** [tts -l] on a table of three voices. *)
Example main_list_voices :
  printed (fst (main ascii_lower
                  {| voice := lit "ru"; speed := 160; pitch := 50;
                     amplitude := 100; output := None; list_voices := true;
                     text := None; test := false |} three_voices)) =
    [MsgVoicesHeader; MsgRule;
     MsgVoiceLine (lit "ru") (lit "russian");
     MsgVoiceLine (lit "en") (lit "english");
     MsgVoiceLine (lit "en") (lit "english-north")].
Proof. reflexivity. Qed.

(** Without espeak the program stops at the probe, with status 1. *)
Example main_without_espeak :
  main ascii_lower (tts None (Some (lit "hi"))) engine_missing =
    ([Run espeak_version; Print MsgEspeakMissing; Print MsgInstallEspeak],
     Raise (SystemExit 1)).
Proof. reflexivity. Qed.

(** ** The dependency probe *)

(** X1: when [espeak --version] cannot be found or exits with a non-zero
    status, the program prints the two lines of installation advice and
    exits with status 1; whatever the arguments, nothing else is launched,
    printed or asked. *)
Theorem probe_failure_stops_program (lower : str -> str) (a : args)
    (w : world) :
  (run w espeak_version = Raise FileNotFoundError \/
   exists p, run w espeak_version = Ret p /\ returncode p <> 0%Z) ->
  main lower a w =
    ([Run espeak_version; Print MsgEspeakMissing; Print MsgInstallEspeak],
     Raise (SystemExit 1))
  /\ process_outcome (snd (main lower a w)) = Exited 1.
Proof.
  intros H.
  assert (I : KaliTTS.init w =
              ([Run espeak_version; Print MsgEspeakMissing;
                Print MsgInstallEspeak], Raise (SystemExit 1))).
  { unfold KaliTTS.init, KaliTTS.check_dependencies; run_monad.
    change [lit "espeak"; lit "--version"] with espeak_version.
    destruct H as [-> | (p & -> & N)]; [reflexivity|].
    apply Z.eqb_neq in N. rewrite N. reflexivity. }
  assert (E : main lower a w =
              ([Run espeak_version; Print MsgEspeakMissing;
                Print MsgInstallEspeak], Raise (SystemExit 1))).
  { unfold main. unfold bind at 1. rewrite I. reflexivity. }
  rewrite E. split; reflexivity.
Qed.

Lemma probe_failure_stops_program_witness :
  main ascii_lower tts_test engine_missing =
    ([Run espeak_version; Print MsgEspeakMissing; Print MsgInstallEspeak],
     Raise (SystemExit 1))
  /\ process_outcome (snd (main ascii_lower tts_test engine_missing))
     = Exited 1.
Proof.
  apply (probe_failure_stops_program ascii_lower tts_test engine_missing).
  left. reflexivity.
Defined.

(** X2: an exception of the version probe other than
    [CalledProcessError] and [FileNotFoundError] is not handled by
    [check_dependencies]: it leaves [main] right after the probe, and
    no advice is printed. *)
Theorem probe_exception_escapes (lower : str -> str) (a : args) (w : world)
    (e : exn) :
  run w espeak_version = Raise e ->
  e <> FileNotFoundError -> (forall rc, e <> CalledProcessError rc) ->
  main lower a w = ([Run espeak_version], Raise e).
Proof.
  intros R N1 N2.
  assert (I : KaliTTS.init w = ([Run espeak_version], Raise e)).
  { unfold KaliTTS.init, KaliTTS.check_dependencies; run_monad.
    change [lit "espeak"; lit "--version"] with espeak_version.
    rewrite R.
    destruct e as [| | rc | | | | | | | |]; try reflexivity;
      [now elim N1 | now elim (N2 rc)]. }
  unfold main. unfold bind at 1. rewrite I. reflexivity.
Qed.

Lemma probe_exception_escapes_witness :
  main ascii_lower (tts None (Some (lit "hi"))) probe_denied =
    ([Run espeak_version], Raise OSError).
Proof.
  apply (probe_exception_escapes ascii_lower (tts None (Some (lit "hi")))
           probe_denied OSError).
  - reflexivity.
  - discriminate.
  - discriminate.
Defined.

(** ** Listing the voices *)

Lemma prompts_app (a b : trace) : prompts (a ++ b) = prompts a + prompts b.
Proof.
  induction a as [|[m|c|] a IH]; simpl; rewrite ?IH; reflexivity.
Qed.

Lemma prints_only (ms : list message) :
  runs (List.map Print ms) = [] /\ prompts (List.map Print ms) = 0
  /\ printed (List.map Print ms) = ms.
Proof.
  induction ms as [|m ms (R & P & Q)]; simpl; rewrite ?R, ?P, ?Q; auto.
Qed.

(** The loop of [list_voices] never raises: the test on the number of
    fields guards every index it uses. *)
Lemma print_voice_lines_spec (w : world) (lines : list str) :
  KaliTTS.print_voice_lines lines w =
    (List.map Print (flat_map row_message lines), Ret tt).
Proof.
  induction lines as [|line rest IH]; simpl; [reflexivity|].
  unfold bind at 1. unfold row_message at 1, slice_from.
  destruct (split_ws line) as [|f1 [|f2 [|f3 [|f4 more]]]];
    try (simpl; rewrite IH; reflexivity).
  assert (G : (len (f1 :: f2 :: f3 :: f4 :: more) >=? 4)%Z = true).
  { apply Z.geb_le. unfold len. cbn [Datatypes.length]. lia. }
  rewrite G. simpl. rewrite IH. reflexivity.
Qed.

Lemma list_voices_completed (w : world) (p : completed) :
  run w espeak_voices = Ret p ->
  KaliTTS.list_voices w =
    (Run espeak_voices :: Print MsgVoicesHeader :: Print MsgRule ::
       List.map Print (flat_map row_message (voice_lines (stdout p))),
     Ret tt).
Proof.
  intros R. unfold KaliTTS.list_voices, try_except, bind, subprocess_run, print.
  change [lit "espeak"; lit "--voices"] with espeak_voices.
  rewrite R. cbn [andb]. rewrite print_voice_lines_spec. reflexivity.
Qed.

Lemma list_voices_raised (w : world) (e : exn) :
  run w espeak_voices = Raise e ->
  KaliTTS.list_voices w =
    if is_Exception e
    then ([Run espeak_voices; Print (MsgVoicesFailed e)], Ret tt)
    else ([Run espeak_voices], Raise e).
Proof.
  intros R. unfold KaliTTS.list_voices, try_except, bind, subprocess_run, print.
  change [lit "espeak"; lit "--voices"] with espeak_voices.
  rewrite R. destruct (is_Exception e); reflexivity.
Qed.

(** X3: [list_voices], once [espeak --voices] has completed, returns
    normally whatever the output and the exit status: it prints the
    heading, the rule, and one line for each row after the header that
    has at least four fields, made of the second field and of the fields
    from the fourth on joined by single spaces.  Shorter rows are
    skipped. *)
Theorem list_voices_prints_rows (w : world) (p : completed) :
  run w espeak_voices = Ret p ->
  snd (KaliTTS.list_voices w) = Ret tt
  /\ runs (fst (KaliTTS.list_voices w)) = [espeak_voices]
  /\ printed (fst (KaliTTS.list_voices w)) =
       MsgVoicesHeader :: MsgRule ::
         flat_map row_message (voice_lines (stdout p)).
Proof.
  intros R. rewrite (list_voices_completed w p R). simpl.
  destruct (prints_only (flat_map row_message (voice_lines (stdout p))))
    as (A & _ & C).
  rewrite A, C. auto.
Qed.

Lemma list_voices_prints_rows_witness :
  snd (KaliTTS.list_voices broken_table) = Ret tt
  /\ runs (fst (KaliTTS.list_voices broken_table)) = [espeak_voices]
  /\ printed (fst (KaliTTS.list_voices broken_table)) =
       [MsgVoicesHeader; MsgRule; MsgVoiceLine (lit "ru") (lit "russian")].
Proof.
  apply (list_voices_prints_rows broken_table
           {| returncode := 0;
              stdout := lit "Pty Language" ++ [10%N]
                        ++ lit " 5  ru  M  russian" ++ [10%N]
                        ++ lit "garbage" |}).
  reflexivity.
Defined.

(** X4: with [--list-voices], once the probe has passed, the program
    launches the voice listing and nothing else, asks nothing and ends
    with status 0, also when the listing raises an [Exception] (the
    failure is only printed); [--test], [--text] and the other options
    are ignored. *)
Theorem list_mode_only_lists (lower : str -> str) (a : args) (w : world) :
  espeak_present w -> list_voices a = true ->
  (forall e, run w espeak_voices = Raise e -> is_Exception e = true) ->
  runs (fst (main lower a w)) = [espeak_version; espeak_voices]
  /\ prompts (fst (main lower a w)) = 0
  /\ process_outcome (snd (main lower a w)) = Exited 0
  /\ (forall e, run w espeak_voices = Raise e ->
        printed (fst (main lower a w)) = [MsgVoicesFailed e]).
Proof.
  intros P L X. unfold main. rewrite L. unfold bind.
  rewrite (init_ok w P).
  destruct (run w espeak_voices) as [p | e] eqn:R.
  - rewrite (list_voices_completed w p R). simpl.
    destruct (prints_only (flat_map row_message (voice_lines (stdout p))))
      as (A & B & _).
    rewrite A, B. repeat split. discriminate.
  - rewrite (list_voices_raised w e R), (X e eq_refl). simpl.
    repeat split. intros e' E'. inversion E'. reflexivity.
Qed.

Lemma list_mode_only_lists_witness :
  runs (fst (main ascii_lower tts_list three_voices))
    = [espeak_version; espeak_voices]
  /\ prompts (fst (main ascii_lower tts_list three_voices)) = 0
  /\ process_outcome (snd (main ascii_lower tts_list three_voices)) = Exited 0
  /\ (forall e, run three_voices espeak_voices = Raise e ->
        printed (fst (main ascii_lower tts_list three_voices))
        = [MsgVoicesFailed e]).
Proof.
  apply (list_mode_only_lists ascii_lower tts_list three_voices).
  - eexists. split; reflexivity.
  - reflexivity.
  - discriminate.
Defined.

Lemma row_message_code (line code name : str) :
  In (MsgVoiceLine code name) (row_message line) ->
  In code (second_fields [line]).
Proof.
  unfold row_message, second_fields. simpl.
  destruct (split_ws line) as [|f1 [|f2 [|f3 [|f4 more]]]]; simpl;
    try tauto.
  intros [H | []]. inversion H. now left.
Qed.

Lemma second_fields_app (a b : list str) :
  second_fields (a ++ b) = second_fields a ++ second_fields b.
Proof. unfold second_fields. apply flat_map_app. Qed.

(** X5: every language code that [list_voices] prints is in the list
    that [get_available_voices] returns, whenever the enumeration of
    the latter succeeds. *)
Theorem listed_codes_are_available (w : world) (code name : str)
    (l : list str) :
  In (MsgVoiceLine code name) (printed (fst (KaliTTS.list_voices w))) ->
  snd (KaliTTS.enumerate_voices w) = Ret l ->
  snd (KaliTTS.get_available_voices w) = Ret l /\ In code l.
Proof.
  intros H E.
  rewrite get_available_voices_spec, E. split; [reflexivity|].
  rewrite enumerate_voices_spec in E. simpl in E.
  destruct (run w espeak_voices) as [p | e] eqn:R; [|discriminate].
  destruct (existsb one_field (voice_lines (stdout p))); [discriminate|].
  inversion E; subst l. rewrite sorted_In, set_In.
  rewrite (list_voices_completed w p R) in H. simpl in H.
  destruct (prints_only (flat_map row_message (voice_lines (stdout p))))
    as (_ & _ & C).
  rewrite C in H. destruct H as [H | [H | H]]; try discriminate.
  apply in_flat_map in H. destruct H as (line & Hl & Hm).
  apply row_message_code in Hm.
  apply in_split in Hl. destruct Hl as (l1 & l2 & ->).
  change (line :: l2) with ([line] ++ l2).
  rewrite !second_fields_app. apply in_or_app. right.
  apply in_or_app. now left.
Qed.

Lemma listed_codes_are_available_witness :
  snd (KaliTTS.get_available_voices three_voices) = Ret [lit "en"; lit "ru"]
  /\ In (lit "ru") [lit "en"; lit "ru"].
Proof.
  apply (listed_codes_are_available three_voices (lit "ru") (lit "russian")
           [lit "en"; lit "ru"]).
  - vm_compute. tauto.
  - reflexivity.
Defined.

(** Two strictly ascending lists with the same elements are equal. *)
Lemma strict_sorted_unique (l1 l2 : list str) :
  StronglySorted str_lt l1 -> StronglySorted str_lt l2 ->
  (forall x, In x l1 <-> In x l2) -> l1 = l2.
Proof.
  intros S1; revert l2; induction S1 as [|x r1 S1 IH F1];
    intros l2 S2 M.
  - destruct l2 as [|y r2]; [reflexivity|].
    exfalso. apply (proj2 (M y)). now left.
  - destruct S2 as [|y r2 S2 F2].
    + exfalso. apply (proj1 (M x)). now left.
    + rewrite Forall_forall in F1, F2.
      assert (x = y).
      { destruct (proj1 (M x) (or_introl eq_refl)) as [Hy | Hx]; [auto|].
        destruct (proj2 (M y) (or_introl eq_refl)) as [Hx' | Hy']; [auto|].
        pose proof (str_ltb_trans _ _ _ (F1 _ Hy') (F2 _ Hx)) as T.
        rewrite str_ltb_irrefl in T. discriminate. }
      subst y. f_equal. apply IH; [exact S2|].
      intros z; split; intros Hz.
      * destruct (proj1 (M z) (or_intror Hz)) as [<- | H]; [|exact H].
        pose proof (F1 _ Hz) as T. unfold str_lt in T.
        rewrite str_ltb_irrefl in T. discriminate.
      * destruct (proj2 (M z) (or_intror Hz)) as [<- | H]; [|exact H].
        pose proof (F2 _ Hz) as T. unfold str_lt in T.
        rewrite str_ltb_irrefl in T. discriminate.
Qed.

(** X6: the list of [get_available_voices] depends only on which codes
    stand in the second field of the rows: two voice tables without a
    one-field row and with the same codes give the same list, whatever
    the order of the rows, their repetitions, their other fields and
    the exit status of the engine. *)
Theorem available_voices_depend_on_codes (w1 w2 : world) (p1 p2 : completed) :
  run w1 espeak_voices = Ret p1 -> run w2 espeak_voices = Ret p2 ->
  existsb one_field (voice_lines (stdout p1)) = false ->
  existsb one_field (voice_lines (stdout p2)) = false ->
  (forall code, In code (second_fields (voice_lines (stdout p1))) <->
                In code (second_fields (voice_lines (stdout p2)))) ->
  snd (KaliTTS.get_available_voices w1) = snd (KaliTTS.get_available_voices w2).
Proof.
  intros R1 R2 O1 O2 M.
  rewrite !get_available_voices_spec, !enumerate_voices_spec. simpl.
  rewrite R1, R2, O1, O2. f_equal.
  apply strict_sorted_unique.
  - apply sorted_strict, set_NoDup.
  - apply sorted_strict, set_NoDup.
  - intros x. rewrite !sorted_In, !set_In. apply M.
Qed.

Lemma available_voices_depend_on_codes_witness :
  snd (KaliTTS.get_available_voices three_voices) =
  snd (KaliTTS.get_available_voices voices_reordered).
Proof.
  apply (available_voices_depend_on_codes three_voices voices_reordered
           {| returncode := 0;
              stdout := lit "Pty Language Age/Gender VoiceName" ++ [10%N]
                        ++ lit " 5  ru  M  russian" ++ [10%N]
                        ++ lit " 5  en  M  english" ++ [10%N]
                        ++ lit " 2  en  M  english-north" ++ [10%N] |}
           {| returncode := 1;
              stdout := lit "Pty Language Age/Gender VoiceName" ++ [10%N]
                        ++ lit " 2  en  M  english-north" ++ [10%N]
                        ++ lit " 5  ru  M  russian" ++ [10%N] |});
    try reflexivity.
  intros code. vm_compute. tauto.
Defined.

(** ** The self-test and the synthesis *)

Lemma text_to_speech_prompts (w : world) (text voice : str)
    (speed pitch amplitude : Z) (output : option str) :
  prompts (fst (KaliTTS.text_to_speech text voice speed pitch amplitude
                  output w)) = 0.
Proof.
  unfold KaliTTS.text_to_speech.
  generalize (KaliTTS.espeak_cmd text voice speed pitch amplitude output).
  intros cmd. unfold try_except, bind, subprocess_run, ret, print.
  cbn [caller_strings forallb].
  destruct output as [o|];
    [destruct (truthy o); [destruct (encodable o)|]|];
    cbn [andb]; try reflexivity;
    (destruct (encodable voice); cbn [andb]; [|reflexivity]);
    (destruct (run w cmd) as [p | e];
     [cbn [andb]; destruct (negb (returncode p =? 0)%Z) | destruct e];
     reflexivity).
Qed.

(** X7: with [--test] (and without [--list-voices]), once the probe has
    passed, the program enumerates the voices and then always speaks
    the fixed test sentence with the voice ru, speed 160, pitch 50,
    amplitude 100 and no output file: the options given, the clipboard
    and a failure of the enumeration change nothing, and nothing is
    asked. *)
Theorem self_test_speaks_fixed_text (lower : str -> str) (a : args)
    (w : world) :
  espeak_present w -> list_voices a = false -> test a = true ->
  runs (fst (main lower a w)) =
    [espeak_version; espeak_voices;
     KaliTTS.espeak_cmd test_text (lit "ru") 160 50 100 None]
  /\ spoken (fst (main lower a w)) = [test_text]
  /\ prompts (fst (main lower a w)) = 0.
Proof.
  intros P L T.
  pose proof (text_to_speech_runs w test_text (lit "ru") 160 50 100 None
                eq_refl eq_refl) as R.
  pose proof (text_to_speech_prompts w test_text (lit "ru") 160 50 100 None) as Q.
  pose proof (get_available_voices_spec w) as G.
  assert (E : main lower a w =
              (Run espeak_version :: fst (self_test w), snd (self_test w))).
  { unfold main. rewrite L, T. unfold bind. rewrite (init_ok w P).
    destruct (self_test w); reflexivity. }
  assert (S : runs (fst (self_test w)) =
                [espeak_voices;
                 KaliTTS.espeak_cmd test_text (lit "ru") 160 50 100 None]
              /\ prompts (fst (self_test w)) = 0).
  { unfold self_test, bind, print.
    destruct (KaliTTS.get_available_voices w) as [tv rv].
    inversion G; subst tv rv; clear G.
    destruct (snd (KaliTTS.enumerate_voices w)) as [l | e];
      destruct (KaliTTS.text_to_speech test_text (lit "ru") 160 50 100 None w)
        as [ts [b | e']];
      simpl in *; rewrite ?runs_app, ?prompts_app, R, ?Q; simpl; auto. }
  destruct S as [S1 S2]. rewrite E. unfold spoken. simpl.
  rewrite S1, S2. simpl. auto.
Qed.

Lemma self_test_speaks_fixed_text_witness :
  runs (fst (main ascii_lower tts_test engine_fails)) =
    [espeak_version; espeak_voices;
     KaliTTS.espeak_cmd test_text (lit "ru") 160 50 100 None]
  /\ spoken (fst (main ascii_lower tts_test engine_fails)) = [test_text]
  /\ prompts (fst (main ascii_lower tts_test engine_fails)) = 0.
Proof.
  apply (self_test_speaks_fixed_text ascii_lower tts_test engine_fails).
  - eexists. split; reflexivity.
  - reflexivity.
  - reflexivity.
Defined.



(** X9: an empty [--output] is no output: the program behaves as
    without the option, the command has no file-write flag and the
    final notice names no file. *)
Theorem empty_output_is_no_output (lower : str -> str) (a : args) (w : world) :
  output a = Some [] ->
  main lower a w = main lower (without_output a) w.
Proof.
  destruct a as [v s p am o lv t te]. simpl. intros ->. reflexivity.
Qed.

Lemma empty_output_is_no_output_witness :
  main ascii_lower (tts (Some []) (Some (lit "hi"))) silent_engine =
  main ascii_lower (without_output (tts (Some []) (Some (lit "hi"))))
    silent_engine.
Proof.
  apply (empty_output_is_no_output ascii_lower
           (tts (Some []) (Some (lit "hi"))) silent_engine).
  reflexivity.
Defined.

(** ** The clipboard text and the question *)

Lemma from_clipboard_text (w : world) (s : str) :
  paste w = Ret s -> strip s <> [] ->
  from_clipboard w = ([Print MsgAcquiring], Ret (strip s)).
Proof.
  intros P N. unfold from_clipboard, bind, print.
  rewrite (get_selected_text_text w s P N).
  apply truthy_true in N. rewrite N. reflexivity.
Qed.



(** X10: in normal mode without an explicit text, when the clipboard
    holds a text [t] that neither starts nor ends with white space,
    with any white space before and after it, and [t] is at most 1000
    characters long or the user confirms, and the standard output can
    encode [t], the voice and the output path, then [t] itself, without
    the white space around it, is the last argument of the one synthesis
    launched, and no selection tool is launched. *)
Theorem clipboard_text_spoken_trimmed (lower : str -> str) (a : args)
    (w : world) (l t r : str) :
  espeak_present w -> list_voices a = false -> test a = false ->
  truthy_opt (text a) = false ->
  paste w = Ret (l ++ t ++ r) ->
  forallb isspace l = true -> forallb isspace r = true ->
  trimmed t = true -> speakable a t ->
  ((len t <= 1000)%Z \/
   exists c, input w = Ret c /\ lower c = lit "y") ->
  runs (fst (main lower a w)) =
    [espeak_version;
     KaliTTS.espeak_cmd t (voice a) (speed a) (pitch a) (amplitude a)
       (output a)]
  /\ spoken (fst (main lower a w)) = [t].
Proof.
  intros P L T E Pa Sl Sr Tr K C.
  assert (S : strip (l ++ t ++ r) = t) by now apply strip_between_spaces.
  assert (N : strip (l ++ t ++ r) <> []).
  { rewrite S. destruct t; [discriminate Tr | discriminate]. }
  assert (R : runs (fst (main lower a w)) =
              [espeak_version;
               KaliTTS.espeak_cmd t (voice a) (speed a) (pitch a)
                 (amplitude a) (output a)]).
  { rewrite (main_normal lower a w P L T), (acquire_clipboard a w E),
      (from_clipboard_text w _ Pa N), S.
    simpl. f_equal.
    destruct (Z.gtb_spec (len t) 1000) as [G | G].
    - destruct C as [C | (c & I & Y)]; [lia|].
      rewrite (confirm_accepted lower a t c w); [|lia|exact I|exact Y].
      simpl. now apply speak_runs.
    - rewrite (confirm_short lower a t w G). now apply speak_runs. }
  split; [exact R|].
  unfold spoken. rewrite R. simpl.
  rewrite espeak_cmd_is_synthesis. simpl. now rewrite espeak_cmd_last.
Qed.

Lemma clipboard_text_spoken_trimmed_witness :
  paste clipboard_hi = Ret (lit " hi ")
  /\ runs (fst (main ascii_lower (tts None None) clipboard_hi)) =
       [espeak_version;
        [lit "espeak"; lit "-v"; lit "ru"; lit "-s"; lit "160";
         lit "-p"; lit "50"; lit "-a"; lit "100"; lit "--"; lit "hi"]]
  /\ spoken (fst (main ascii_lower (tts None None) clipboard_hi))
     = [lit "hi"].
Proof.
  split; [reflexivity|].
  apply (clipboard_text_spoken_trimmed ascii_lower (tts None None)
           clipboard_hi (lit " ") (lit "hi") (lit " ")).
  - eexists. split; reflexivity.
  - reflexivity.
  - reflexivity.
  - reflexivity.
  - reflexivity.
  - reflexivity.
  - reflexivity.
  - reflexivity.
  - repeat split.
  - left. vm_compute. discriminate.
Defined.






(** X12: when the acquired text is longer than 1000 characters and the
    question cannot be answered ([input] raises, as [EOFError] without a
    terminal), the exception leaves [main] uncaught and no synthesis is
    launched. *)
Theorem prompt_failure_escapes (lower : str -> str) (a : args) (w : world)
    (t : str) (e : exn) :
  espeak_present w -> list_voices a = false -> test a = false ->
  snd (acquire a w) = Ret t -> (len t > 1000)%Z ->
  input w = Raise e ->
  snd (main lower a w) = Raise e
  /\ filter is_synthesis (runs (fst (main lower a w))) = [].
Proof.
  intros P L T A G I.
  assert (C : confirm_and_speak lower a t w =
              ([Print (MsgTooLong (len t)); Input], Raise e)).
  { unfold confirm_and_speak.
    destruct (Z.gtb_spec (len t) 1000); [|lia].
    run_monad. rewrite I. reflexivity. }
  rewrite (main_normal lower a w P L T), A, C. simpl.
  split; [reflexivity|].
  rewrite runs_app, filter_app, acquire_no_synthesis. reflexivity.
Qed.

Lemma prompt_failure_escapes_witness :
  snd (main ascii_lower (tts None None) no_terminal) = Raise EOFError
  /\ filter is_synthesis
       (runs (fst (main ascii_lower (tts None None) no_terminal))) = [].
Proof.
  apply (prompt_failure_escapes ascii_lower (tts None None) no_terminal
           long_text EOFError).
  - eexists. split; reflexivity.
  - reflexivity.
  - reflexivity.
  - vm_compute. reflexivity.
  - vm_compute. reflexivity.
  - reflexivity.
Defined.

(** ** The fallback chain, further *)

(** X13: in the fallback chain only a tool that is not installed is
    skipped.  When pyperclip has raised and a tool raises anything other
    than [FileNotFoundError], the later tools are not tried, the
    exception leaves [get_selected_text] and, in normal mode without an
    explicit text, [main]. *)
Theorem fallback_tool_error_escapes (lower : str -> str) (a : args)
    (w : world) (e0 e : exn) (pre post : list (list str * str))
    (cmd : list str) (desc : str) :
  paste w = Raise e0 -> is_Exception e0 = true ->
  KaliTTS.methods = pre ++ (cmd, desc) :: post ->
  Forall (fun m => gives_nothing (run w (fst m)) = true) pre ->
  run w cmd = Raise e -> e <> FileNotFoundError ->
  runs (fst (KaliTTS.get_selected_text w)) = List.map fst pre ++ [cmd]
  /\ snd (KaliTTS.get_selected_text w) = Raise e
  /\ (espeak_present w -> list_voices a = false -> test a = false ->
      truthy_opt (text a) = false ->
      snd (main lower a w) = Raise e).
Proof.
  intros P0 E0 M F R N.
  assert (G : KaliTTS.get_selected_text w =
              (Print (MsgClipboardError e0) ::
                 List.map (fun m => Run (fst m)) pre ++ [Run cmd], Raise e)).
  { rewrite (get_selected_text_raises w e0 P0 E0).
    unfold KaliTTS._fallback_get_text. rewrite M.
    now rewrite (fallback_loop_raises w pre post cmd desc e F R N). }
  rewrite G. simpl. rewrite runs_app, runs_map_Run.
  split; [reflexivity|]. split; [reflexivity|].
  intros P L T E.
  rewrite (main_normal lower a w P L T), (acquire_clipboard a w E).
  unfold from_clipboard, bind, print. rewrite G. reflexivity.
Qed.

Lemma fallback_tool_error_escapes_witness :
  runs (fst (KaliTTS.get_selected_text xclip_denied)) = [xclip_primary]
  /\ snd (KaliTTS.get_selected_text xclip_denied) = Raise OSError
  /\ snd (main ascii_lower (tts None None) xclip_denied) = Raise OSError.
Proof.
  destruct (fallback_tool_error_escapes ascii_lower (tts None None)
              xclip_denied PyperclipException OSError []
              [(xclip_clipboard, lit "X11 clipboard");
               (xsel_primary, lit "XSel primary")]
              xclip_primary (lit "X11 primary selection"))
    as (A & B & C); try reflexivity.
  - constructor.
  - discriminate.
  - split; [exact A|]. split; [exact B|].
    apply C; try reflexivity.
    eexists. split; reflexivity.
Defined.

(** X14: when a tool of the chain supplies the text, [_fallback_get_text]
    prints one notice, the one that names this tool, and nothing for the
    tools tried before; when no tool supplies a text it prints nothing. *)
Theorem fallback_notice_names_tool (w : world) :
  (forall pre cmd desc post p,
     KaliTTS.methods = pre ++ (cmd, desc) :: post ->
     Forall (fun m => gives_nothing (run w (fst m)) = true) pre ->
     run w cmd = Ret p -> returncode p = 0%Z -> strip (stdout p) <> [] ->
     printed (fst (KaliTTS._fallback_get_text w)) = [MsgGotVia desc])
  /\ (Forall (fun m => gives_nothing (run w (fst m)) = true) KaliTTS.methods ->
      printed (fst (KaliTTS._fallback_get_text w)) = []).
Proof.
  assert (Q : forall ms : list (list str * str),
            printed (List.map (fun m => Run (fst m)) ms) = []).
  { induction ms as [|m ms IH]; simpl; auto. }
  split.
  - intros pre cmd desc post p M F R C S.
    unfold KaliTTS._fallback_get_text. rewrite M.
    rewrite (fallback_loop_first w pre post cmd desc p F R C S). simpl.
    now rewrite printed_app, Q.
  - intros F. unfold KaliTTS._fallback_get_text.
    rewrite (fallback_loop_none w _ F). apply Q.
Qed.

Lemma fallback_notice_names_tool_witness :
  printed (fst (KaliTTS._fallback_get_text no_pyperclip))
    = [MsgGotVia (lit "X11 clipboard")]
  /\ printed (fst (KaliTTS._fallback_get_text nothing_selected)) = [].
Proof.
  split.
  - apply (proj1 (fallback_notice_names_tool no_pyperclip)
             [(xclip_primary, lit "X11 primary selection")]
             xclip_clipboard (lit "X11 clipboard")
             [(xsel_primary, lit "XSel primary")]
             {| returncode := 0; stdout := lit " picked " |});
      try reflexivity.
    + repeat constructor.
    + vm_compute. discriminate.
  - apply (proj2 (fallback_notice_names_tool nothing_selected)).
    repeat constructor.
Defined.

(** ** What the program never does *)

Lemma init_no_synthesis (w : world) :
  filter is_synthesis (runs (fst (KaliTTS.init w))) = [].
Proof.
  unfold KaliTTS.init, KaliTTS.check_dependencies; run_monad.
  destruct (run w [lit "espeak"; lit "--version"]) as [p | e].
  - simpl. destruct (negb (returncode p =? 0)%Z); reflexivity.
  - destruct e; reflexivity.
Qed.

Lemma list_voices_no_synthesis (w : world) :
  filter is_synthesis (runs (fst (KaliTTS.list_voices w))) = [].
Proof.
  destruct (run w espeak_voices) as [p | e] eqn:R.
  - rewrite (list_voices_completed w p R). simpl.
    destruct (prints_only (flat_map row_message (voice_lines (stdout p))))
      as (A & _ & _).
    now rewrite A.
  - rewrite (list_voices_raised w e R). destruct (is_Exception e); reflexivity.
Qed.

Lemma self_test_one_synthesis (w : world) :
  List.length (filter is_synthesis (runs (fst (self_test w)))) = 1.
Proof.
  pose proof (text_to_speech_runs w test_text (lit "ru") 160 50 100 None) as R.
  pose proof (get_available_voices_spec w) as G.
  unfold self_test, bind, print.
  destruct (KaliTTS.get_available_voices w) as [tv rv].
  inversion G; subst tv rv; clear G.
  destruct (snd (KaliTTS.enumerate_voices w)) as [l | e];
    destruct (KaliTTS.text_to_speech test_text (lit "ru") 160 50 100 None w)
      as [ts [b | e']];
    simpl in *; rewrite ?runs_app, R; reflexivity.
Qed.

Lemma synthesis_count_bind {A B} (m : M A) (k : A -> M B) (w : world)
    (i j : nat) :
  List.length (filter is_synthesis (runs (fst (m w)))) <= i ->
  (forall x, List.length (filter is_synthesis (runs (fst (k x w)))) <= j) ->
  List.length (filter is_synthesis (runs (fst (bind m k w)))) <= i + j.
Proof.
  intros Hm Hk. rewrite bind_fst, runs_app, filter_app, length_app.
  destruct (snd (m w)) as [x | e]; [specialize (Hk x)|]; simpl; lia.
Qed.

Lemma print_no_synthesis (m : message) (w : world) :
  List.length (filter is_synthesis (runs (fst (print m w)))) <= 0.
Proof. now rewrite (proj1 (print_quiet m w)). Qed.

Lemma speak_at_most_one_synthesis (a : args) (t : str) (w : world) :
  List.length (filter is_synthesis (runs (fst (speak a t w)))) <= 1.
Proof.
  unfold speak.
  repeat (apply (synthesis_count_bind _ _ w 0 1);
          [apply print_no_synthesis | intros _]).
  apply (synthesis_count_bind _ _ w 1 0).
  - destruct (text_to_speech_runs_cases w t (voice a) (speed a) (pitch a)
                (amplitude a) (output a)) as [R | R]; rewrite R; simpl;
      [rewrite espeak_cmd_is_synthesis|]; simpl; lia.
  - intros [|]; [destruct (output a) as [o|]; [destruct (truthy o)|]|];
      apply print_no_synthesis.
Qed.

Lemma confirm_at_most_one_synthesis (lower : str -> str) (a : args)
    (t : str) (w : world) :
  List.length
    (filter is_synthesis (runs (fst (confirm_and_speak lower a t w)))) <= 1.
Proof.
  pose proof (speak_at_most_one_synthesis a t w) as S.
  unfold confirm_and_speak.
  destruct (len t >? 1000)%Z; [|lia].
  unfold bind at 1 2. unfold print, py_input at 1.
  cbn [caller_strings forallb].
  destruct (input w) as [c | e]; [|simpl; lia].
  destruct (negb (str_eqb (lower c) (lit "y"))); simpl; [lia|].
  destruct (speak a t w); simpl in *. lia.
Qed.

(** X15: whatever the arguments and whatever the world answers, one
    execution launches at most one synthesis command: a synthesis is
    never repeated or retried. *)
Theorem at_most_one_synthesis (lower : str -> str) (a : args) (w : world) :
  List.length (filter is_synthesis (runs (fst (main lower a w)))) <= 1.
Proof.
  unfold main. rewrite bind_fst, runs_app, filter_app, init_no_synthesis.
  simpl.
  destruct (snd (KaliTTS.init w)) as [u | e]; [|simpl; lia].
  destruct (list_voices a).
  - rewrite list_voices_no_synthesis. simpl; lia.
  - destruct (test a).
    + rewrite self_test_one_synthesis. lia.
    + rewrite bind_fst, runs_app, filter_app, acquire_no_synthesis. simpl.
      destruct (snd (acquire a w)) as [t | e]; [|simpl; lia].
      apply confirm_at_most_one_synthesis.
Qed.

Lemma list_voices_ignores_paste (w : world) (p : result str) :
  KaliTTS.list_voices (with_paste w p) = KaliTTS.list_voices w.
Proof.
  destruct (run w espeak_voices) as [c | e] eqn:R.
  - rewrite (list_voices_completed w c R).
    now rewrite (list_voices_completed (with_paste w p) c R).
  - rewrite (list_voices_raised w e R).
    now rewrite (list_voices_raised (with_paste w p) e R).
Qed.

Lemma bind_ext {A B} (m : M A) (k : A -> M B) (w w' : world) :
  m w' = m w -> (forall x, k x w' = k x w) -> bind m k w' = bind m k w.
Proof.
  intros Hm Hk. unfold bind. rewrite Hm.
  destruct (m w) as [t [x | e]]; [rewrite Hk|]; reflexivity.
Qed.

Lemma try_except_ext {A} (m : M A) (h : exn -> option (M A))
    (w w' : world) :
  m w' = m w -> (forall e k, h e = Some k -> k w' = k w) ->
  try_except m h w' = try_except m h w.
Proof.
  intros Hm Hh. unfold try_except. rewrite Hm.
  destruct (m w) as [t [x | e]]; [reflexivity|].
  destruct (h e) as [k|] eqn:H; [rewrite (Hh e k H)|]; reflexivity.
Qed.

Lemma init_ignores_paste (w : world) (p : result str) :
  KaliTTS.init (with_paste w p) = KaliTTS.init w.
Proof.
  unfold KaliTTS.init, KaliTTS.check_dependencies.
  apply try_except_ext; [reflexivity|].
  intros e k H. destruct e; inversion H; reflexivity.
Qed.

Lemma text_to_speech_ignores_paste (w : world) (p : result str)
    (text voice : str) (speed pitch amplitude : Z) (output : option str) :
  KaliTTS.text_to_speech text voice speed pitch amplitude output
    (with_paste w p) =
  KaliTTS.text_to_speech text voice speed pitch amplitude output w.
Proof.
  unfold KaliTTS.text_to_speech.
  apply bind_ext; [destruct output as [o|]; [destruct (truthy o)|];
                   reflexivity|].
  intros _. apply try_except_ext; [reflexivity|].
  intros e k H. destruct e; inversion H; reflexivity.
Qed.

Lemma self_test_ignores_paste (w : world) (p : result str) :
  self_test (with_paste w p) = self_test w.
Proof.
  unfold self_test.
  repeat (apply bind_ext; [reflexivity | intros _]).
  apply bind_ext.
  - rewrite !get_available_voices_spec, !enumerate_voices_spec. reflexivity.
  - intros voices.
    repeat (apply bind_ext; [reflexivity | intros _]).
    apply bind_ext; [apply text_to_speech_ignores_paste | reflexivity].
Qed.

Lemma speak_ignores_paste (a : args) (t : str) (w : world) (p : result str) :
  speak a t (with_paste w p) = speak a t w.
Proof.
  unfold speak.
  repeat (apply bind_ext; [reflexivity | intros _]).
  apply bind_ext; [apply text_to_speech_ignores_paste|].
  intros [|]; [destruct (output a) as [o|]; [destruct (truthy o)|]|];
    reflexivity.
Qed.

Lemma confirm_ignores_paste (lower : str -> str) (a : args) (t : str)
    (w : world) (p : result str) :
  confirm_and_speak lower a t (with_paste w p) = confirm_and_speak lower a t w.
Proof.
  unfold confirm_and_speak.
  destruct (len t >? 1000)%Z; [|apply speak_ignores_paste].
  apply bind_ext; [reflexivity | intros _].
  apply bind_ext; [reflexivity | intros c].
  destruct (negb (str_eqb (lower c) (lit "y")));
    [reflexivity | apply speak_ignores_paste].
Qed.

(** X16: the clipboard is read only in normal mode without an explicit
    text: with [--list-voices], with [--test] or with a non-empty
    [--text], the whole execution is the same whatever the clipboard
    holds or raises. *)
Theorem clipboard_read_only_when_needed (lower : str -> str) (a : args)
    (w : world) (p : result str) :
  list_voices a = true \/ test a = true \/ truthy_opt (text a) = true ->
  main lower a (with_paste w p) = main lower a w.
Proof.
  intros H. unfold main.
  apply bind_ext; [apply init_ignores_paste | intros _].
  destruct (list_voices a); [apply list_voices_ignores_paste|].
  destruct (test a); [apply self_test_ignores_paste|].
  destruct H as [H | [H | H]]; try discriminate.
  unfold acquire. destruct (text a) as [[|c t]|]; try discriminate.
  apply bind_ext; [reflexivity|]. intros x. apply confirm_ignores_paste.
Qed.

Lemma clipboard_read_only_when_needed_witness :
  main ascii_lower (tts None (Some (lit "hi")))
    (with_paste engine_fails (Raise PyperclipException)) =
  main ascii_lower (tts None (Some (lit "hi"))) engine_fails.
Proof.
  apply (clipboard_read_only_when_needed ascii_lower
           (tts None (Some (lit "hi"))) engine_fails
           (Raise PyperclipException)).
  right. right. reflexivity.
Defined.

(** X17: [get_selected_text] treats only an [Exception] of pyperclip as
    a clipboard failure: a [KeyboardInterrupt] or a [SystemExit] raised
    while pasting goes through at once, nothing is printed and no
    selection tool is launched. *)
Theorem paste_interrupt_not_handled (w : world) (e : exn) :
  paste w = Raise e -> is_Exception e = false ->
  KaliTTS.get_selected_text w = ([], Raise e).
Proof.
  intros P E. unfold KaliTTS.get_selected_text; run_monad.
  now rewrite P, E.
Qed.

Lemma paste_interrupt_not_handled_witness :
  KaliTTS.get_selected_text
    (with_paste blank_clipboard (Raise KeyboardInterrupt)) =
    ([], Raise KeyboardInterrupt).
Proof.
  apply (paste_interrupt_not_handled
           (with_paste blank_clipboard (Raise KeyboardInterrupt))
           KeyboardInterrupt); reflexivity.
Defined.

(** [tts -t] with an undecodable byte of the command line (the surrogate
    U+DC80): the notice of line 186 cannot be printed and nothing is
    launched after the probe. *)
Example main_unencodable_text :
  main ascii_lower (tts None (Some [104; 56448]%N)) silent_engine =
    ([Run espeak_version], Raise UnicodeEncodeError).
Proof. reflexivity. Qed.
